(* ===================================================================== *)
(* weather_pipeline: src/weather_utils.py                                *)
(*                                                                       *)
(* A shallow embedding of the four functions of weather_utils.py         *)
(*   fetch_weather_data, parse_weather_response,                         *)
(*   validate_weather_record, get_weather_description                    *)
(* over a small universe of Python values, with the properties the       *)
(* specification states about them.                                      *)
(* ===================================================================== *)

From Stdlib Require Import ZArith QArith Ascii String List Lia.
From stdpp Require Import base option gmap strings list fin_maps.

Local Open Scope string_scope.
Local Open Scope Z_scope.

(* --------------------------------------------------------------------- *)
(* 1. Python values                                                      *)
(* --------------------------------------------------------------------- *)

(** A Python float.  A finite double is kept as the rational number it
    denotes exactly (every finite double is a dyadic rational), so that a
    comparison against a small integer, which Python performs exactly, is
    the comparison of rationals.  The two infinities and NaN are kept
    apart: they compare as IEEE 754 says. *)
Inductive pyfloat :=
  | FFinite (q : Q)
  | FInf (negative : bool)
  | FNaN.

(** A naive [datetime.datetime] value. *)
Record datetime := mkDatetime {
  dt_year : Z; dt_month : Z; dt_day : Z;
  dt_hour : Z; dt_minute : Z; dt_second : Z; dt_microsecond : Z
}.

(** The values that records and decoded JSON bodies hold.  A [dict] has
    string keys here: JSON objects have no others, and the records the
    module builds are keyed by string literals. *)
#[warnings="-register-all"]
Inductive pyval :=
  | PNone
  | PBool (b : bool)
  | PInt (z : Z)
  | PFloat (f : pyfloat)
  | PStr (s : string)
  | PDatetime (d : datetime)
  | PList (l : list pyval)
  | PDict (m : gmap string pyval).

Abbreviation dict := (gmap string pyval).

(* --------------------------------------------------------------------- *)
(* 2. Exceptions and results                                             *)
(* --------------------------------------------------------------------- *)

(** The classes of what can be raised.  [KeyboardInterrupt] and
    [SystemExit] derive from [BaseException] only, every other one from
    [Exception]. *)
Inductive exn_class :=
  | TypeError
  | ValueError
  | AttributeError
  | ConnectionError
  | ReadTimeout
  | HTTPError
  | JSONDecodeError
  | PlainException
  | KeyboardInterrupt
  | SystemExit.

Record exn := mkExn { exn_cls : exn_class; exn_msg : string }.

Definition is_Exception (c : exn_class) : bool :=
  match c with
  | KeyboardInterrupt | SystemExit => false
  | _ => true
  end.

Inductive result (A : Type) :=
  | Ret (a : A)
  | Raise (e : exn).
Arguments Ret {A} a.
Arguments Raise {A} e.

(** Sequencing: what is raised skips the rest of the block. *)
Definition rbind {A B} (r : result A) (k : A → result B) : result B :=
  match r with
  | Ret a => k a
  | Raise e => Raise e
  end.

Notation "'let!' x ':=' r 'in' k" := (rbind r (λ x, k))
  (at level 10, x name, r at level 100, k at level 200,
   format "'[v' 'let!'  x  ':='  r  'in' '/' k ']'").

(* --------------------------------------------------------------------- *)
(* 3. The operators the module uses                                      *)
(* --------------------------------------------------------------------- *)

(** [d.get(key)]: the value, or [None]. *)
Definition dict_get (d : dict) (key : string) : pyval :=
  default PNone (d !! key).

(** [d.get(key, dflt)]. *)
Definition dict_get_default (d : dict) (key : string) (dflt : pyval) : pyval :=
  default dflt (d !! key).

(** [d[key]], which raises [KeyError] (a [LookupError], hence an
    [Exception]) when the key is missing. *)
Definition dict_getitem (d : dict) (key : string) : result pyval :=
  match d !! key with
  | Some v => Ret v
  | None => Raise (mkExn PlainException ("KeyError: " +:+ key))
  end.

(** [v is None]. *)
Definition is_None (v : pyval) : bool :=
  match v with PNone => true | _ => false end.

(** Truth value of an object, as [not v] and [if v] test it. *)
Definition truthy (v : pyval) : bool :=
  match v with
  | PNone => false
  | PBool b => b
  | PInt z => negb (z =? 0)
  | PFloat (FFinite q) => negb (Qeq_bool q 0)
  | PFloat _ => true
  | PStr s => negb (String.eqb s "")
  | PDatetime _ => true
  | PList l => match l with [] => false | _ => true end
  | PDict m => negb (Nat.eqb (size m) 0)
  end.

(** [c <= f] for an int [c] and a float [f]. *)
Definition int_le_float (c : Z) (f : pyfloat) : bool :=
  match f with
  | FFinite q => Qle_bool (inject_Z c) q
  | FInf negative => negb negative
  | FNaN => false
  end.

(** [f <= c] for a float [f] and an int [c]. *)
Definition float_le_int (f : pyfloat) (c : Z) : bool :=
  match f with
  | FFinite q => Qle_bool q (inject_Z c)
  | FInf negative => negative
  | FNaN => false
  end.

Definition unorderable (op : string) : exn :=
  mkExn TypeError ("'" +:+ op +:+ "' not supported between these instances").

(** [c <= v] with an int literal on the left: [bool] is a subclass of
    [int], a float compares by value, and no other type of the universe
    is ordered against an int. *)
Definition int_le (c : Z) (v : pyval) : result bool :=
  match v with
  | PInt z => Ret (c <=? z)
  | PBool b => Ret (c <=? Z.b2z b)
  | PFloat f => Ret (int_le_float c f)
  | _ => Raise (unorderable "<=")
  end.

(** [v <= c] with an int literal on the right. *)
Definition le_int (v : pyval) (c : Z) : result bool :=
  match v with
  | PInt z => Ret (z <=? c)
  | PBool b => Ret (Z.b2z b <=? c)
  | PFloat f => Ret (float_le_int f c)
  | _ => Raise (unorderable "<=")
  end.

(** The chained comparison [lo <= v <= hi]: [v] is evaluated once and
    the second comparison only when the first one is true. *)
Definition chained_le (lo : Z) (v : pyval) (hi : Z) : result bool :=
  let! a := int_le lo v in
  if a then le_int v hi else Ret false.

(* --------------------------------------------------------------------- *)
(* 4. validate_weather_record                                            *)
(* --------------------------------------------------------------------- *)

Definition required_fields : list string :=
  ["timestamp"; "latitude"; "longitude"; "temperature"; "city"].

(** The loop over [required_fields]: [true] when it runs to its end,
    [false] when it returns [False] from the function. *)
Fixpoint fields_present (record : dict) (fields : list string) : bool :=
  match fields with
  | [] => true
  | field :: rest =>
      match record !! field with
      | None => false                         (* field not in record *)
      | Some v =>
          if is_None v then false             (* record[field] is None *)
          else fields_present record rest
      end
  end.

(** [validate_weather_record(record)]; the argument is a dict or [None]. *)
Definition validate_weather_record (record : option dict) : result bool :=
  match record with
  | None => Ret false
  | Some record =>
      if negb (fields_present record required_fields) then Ret false else
      let! lat := dict_getitem record "latitude" in
      let! ok_lat := chained_le (-90) lat 90 in
      if negb ok_lat then Ret false else
      let! lon := dict_getitem record "longitude" in
      let! ok_lon := chained_le (-180) lon 180 in
      if negb ok_lon then Ret false else
      let! temp := dict_getitem record "temperature" in
      let! ok_temp := chained_le (-100) temp 60 in
      if negb ok_temp then Ret false else
      Ret true
  end.

(* --------------------------------------------------------------------- *)
(* 5. get_weather_description                                            *)
(* --------------------------------------------------------------------- *)

Definition weather_codes_items : list (Z * string) :=
  [ (0, "Clear sky");
    (1, "Mainly clear");
    (2, "Partly cloudy");
    (3, "Overcast");
    (45, "Fog");
    (48, "Depositing rime fog");
    (51, "Light drizzle");
    (53, "Moderate drizzle");
    (55, "Dense drizzle");
    (61, "Slight rain");
    (63, "Moderate rain");
    (65, "Heavy rain");
    (71, "Slight snow");
    (73, "Moderate snow");
    (75, "Heavy snow");
    (77, "Snow grains");
    (80, "Slight rain showers");
    (81, "Moderate rain showers");
    (82, "Violent rain showers");
    (85, "Slight snow showers");
    (86, "Heavy snow showers");
    (95, "Thunderstorm");
    (96, "Thunderstorm with slight hail");
    (99, "Thunderstorm with heavy hail") ].

Definition weather_codes : gmap Z string := list_to_map weather_codes_items.

(** [get_weather_description(weather_code)] for an int argument. *)
Definition get_weather_description (weather_code : Z) : string :=
  default "Unknown" (weather_codes !! weather_code).


(* --------------------------------------------------------------------- *)
(* 6. The collaborators: transport, JSON decoder, clock, stdout          *)
(* --------------------------------------------------------------------- *)

(** What [requests.get] hands back: the two methods the module calls. *)
Record Response := mkResponse {
  raise_for_status : result unit;
  json : result pyval
}.

(** The outside of the module.  [requests_get url params timeout] is the
    outcome of the GET, [parse_iso] the string grammar of
    [datetime.fromisoformat] ([None] where it raises [ValueError]),
    [isoformat] is [datetime.isoformat], and [wall_clock k] is what the
    k-th call of [datetime.now()] reads. *)
Record env := mkEnv {
  requests_get : string → dict → Z → result Response;
  parse_iso : string → option datetime;
  isoformat : datetime → string;
  wall_clock : nat → datetime
}.

(** What a call changes: how often the clock was read, and what was
    printed (latest line first). *)
Record state := mkState {
  clock_reads : nat;
  stdout : list string
}.

(** Statements that may raise and that thread the state. *)
Definition M (A : Type) : Type := state → result A * state.

Definition M_ret {A} (a : A) : M A := λ s, (Ret a, s).

Definition M_bind {A B} (m : M A) (k : A → M B) : M B := λ s,
  match m s with
  | (Ret a, s') => k a s'
  | (Raise e, s') => (Raise e, s')
  end.

Definition lift {A} (r : result A) : M A := λ s, (r, s).

Notation "'let*' x ':=' m 'in' k" := (M_bind m (λ x, k))
  (at level 10, x name, m at level 100, k at level 200,
   format "'[v' 'let*'  x  ':='  m  'in' '/' k ']'").

(** [try: body  except Exception as e: handler e]: only instances of
    [Exception] are caught. *)
Definition try_except_Exception {A} (body : M A) (handler : exn → M A) : M A :=
  λ s,
  match body s with
  | (Ret a, s') => (Ret a, s')
  | (Raise e, s') =>
      if is_Exception (exn_cls e) then handler e s' else (Raise e, s')
  end.

(** [print(line)]. *)
Definition print (line : string) : M unit := λ s,
  (Ret tt, {| clock_reads := clock_reads s; stdout := line :: stdout s |}).

(** [str(e)] of an exception. *)
Definition str_exn (e : exn) : string := exn_msg e.

(** Looking up the method [get] on an object: only a dict has one. *)
Definition getattr_get (v : pyval) : result dict :=
  match v with
  | PDict d => Ret d
  | _ => Raise (mkExn AttributeError "object has no attribute 'get'")
  end.

Section Module_weather_utils.

Variable E : env.

(** [datetime.now()]. *)
Definition datetime_now : M datetime := λ s,
  (Ret (wall_clock E (clock_reads s)),
   {| clock_reads := S (clock_reads s); stdout := stdout s |}).

(** [datetime.fromisoformat(v)]: [TypeError] unless [v] is a str,
    [ValueError] when the string is no ISO date. *)
Definition datetime_fromisoformat (v : pyval) : result datetime :=
  match v with
  | PStr text =>
      match parse_iso E text with
      | Some d => Ret d
      | None => Raise (mkExn ValueError ("Invalid isoformat string: " +:+ text))
      end
  | _ => Raise (mkExn TypeError "fromisoformat: argument must be str")
  end.

(* --------------------------------------------------------------------- *)
(* 7. fetch_weather_data                                                 *)
(* --------------------------------------------------------------------- *)

Definition current_fields : string :=
  "temperature_2m,relative_humidity_2m,wind_speed_10m,wind_direction_10m,weather_code".

(** The dict [params] of the query. *)
Definition request_params (latitude longitude : pyval) (timezone : string)
    : dict :=
  list_to_map
    [ ("latitude", latitude);
      ("longitude", longitude);
      ("current", PStr current_fields);
      ("timezone", PStr timezone) ].

(** The [try] block of [fetch_weather_data]. *)
Definition fetch_weather_data_try
    (latitude longitude : pyval) (city timezone api_url : string)
    (timeout : Z) : M pyval :=
  let params := request_params latitude longitude timezone in
  let* response := lift (requests_get E api_url params timeout) in
  let* _ := lift (raise_for_status response) in
  let* data := lift (json response) in
  let* data_get := lift (getattr_get data) in
  let current := dict_get_default data_get "current" (PDict ∅) in
  let* current_get := lift (getattr_get current) in
  let* now := datetime_now in
  let time := dict_get_default current_get "time" (PStr (isoformat E now)) in
  let* timestamp := lift (datetime_fromisoformat time) in
  let temperature := dict_get current_get "temperature_2m" in
  let humidity := dict_get current_get "relative_humidity_2m" in
  let wind_speed := dict_get current_get "wind_speed_10m" in
  let wind_direction := dict_get current_get "wind_direction_10m" in
  let weather_code := dict_get current_get "weather_code" in
  let* fetch_time := datetime_now in
  M_ret (PDict (list_to_map
    [ ("timestamp", PDatetime timestamp);
      ("latitude", latitude);
      ("longitude", longitude);
      ("temperature", temperature);
      ("humidity", humidity);
      ("wind_speed", wind_speed);
      ("wind_direction", wind_direction);
      ("weather_code", weather_code);
      ("city", PStr city);
      ("fetch_time", PDatetime fetch_time) ])).

(** [fetch_weather_data(latitude, longitude, city, timezone, api_url,
    timeout)]: a record, or [None]. *)
Definition fetch_weather_data
    (latitude longitude : pyval) (city timezone api_url : string)
    (timeout : Z) : M pyval :=
  try_except_Exception
    (fetch_weather_data_try latitude longitude city timezone api_url timeout)
    (λ e,
       let* _ := print ("Error fetching weather data: " +:+ str_exn e) in
       M_ret PNone).

(* --------------------------------------------------------------------- *)
(* 8. parse_weather_response                                             *)
(* --------------------------------------------------------------------- *)

(** The [try] block of [parse_weather_response]. *)
Definition parse_weather_response_try
    (api_response : pyval) (city : string) : M pyval :=
  let* api_response_get := lift (getattr_get api_response) in
  let current := dict_get_default api_response_get "current" (PDict ∅) in
  if negb (truthy current) then M_ret PNone else
  let* current_get := lift (getattr_get current) in
  let* now := datetime_now in
  let time := dict_get_default current_get "time" (PStr (isoformat E now)) in
  let* timestamp := lift (datetime_fromisoformat time) in
  let latitude := dict_get api_response_get "latitude" in
  let longitude := dict_get api_response_get "longitude" in
  let temperature := dict_get current_get "temperature_2m" in
  let humidity := dict_get current_get "relative_humidity_2m" in
  let wind_speed := dict_get current_get "wind_speed_10m" in
  let wind_direction := dict_get current_get "wind_direction_10m" in
  let weather_code := dict_get current_get "weather_code" in
  let* fetch_time := datetime_now in
  M_ret (PDict (list_to_map
    [ ("timestamp", PDatetime timestamp);
      ("latitude", latitude);
      ("longitude", longitude);
      ("temperature", temperature);
      ("humidity", humidity);
      ("wind_speed", wind_speed);
      ("wind_direction", wind_direction);
      ("weather_code", weather_code);
      ("city", PStr city);
      ("fetch_time", PDatetime fetch_time) ])).

(** [parse_weather_response(api_response, city)]: a record, or [None]. *)
Definition parse_weather_response
    (api_response : pyval) (city : string) : M pyval :=
  try_except_Exception
    (parse_weather_response_try api_response city)
    (λ e,
       let* _ := print ("Error parsing weather response: " +:+ str_exn e) in
       M_ret PNone).

End Module_weather_utils.

(* --------------------------------------------------------------------- *)
(* 9. The vocabulary of the specification                                *)
(* --------------------------------------------------------------------- *)

(** A record holds all required fields, none of them [None]. *)
Definition complete (record : dict) : Prop :=
  ∀ field, field ∈ required_fields →
    ∃ v, record !! field = Some v ∧ v ≠ PNone.

(** The objects Python orders against an int: int, bool and float. *)
Definition is_number (v : pyval) : Prop :=
  match v with
  | PInt _ | PBool _ | PFloat _ => True
  | _ => False
  end.

(** The real number a value denotes; the infinities and NaN denote none. *)
Definition number_value (v : pyval) : option Q :=
  match v with
  | PInt z => Some (inject_Z z)
  | PBool b => Some (inject_Z (Z.b2z b))
  | PFloat (FFinite q) => Some q
  | _ => None
  end.

(** [v] lies in the closed interval [[lo, hi]]. *)
Definition in_closed_interval (lo hi : Z) (v : pyval) : Prop :=
  ∃ q, number_value v = Some q ∧ (inject_Z lo <= q)%Q ∧ (q <= inject_Z hi)%Q.

(** [v] is a number strictly below [lo] or strictly above [hi]. *)
Definition strictly_outside (lo hi : Z) (v : pyval) : Prop :=
  (∃ q, number_value v = Some q ∧ ((q < inject_Z lo)%Q ∨ (inject_Z hi < q)%Q))
  ∨ (∃ negative, v = PFloat (FInf negative)).

(** Two records agree on the required fields. *)
Definition agree_on_required (r1 r2 : dict) : Prop :=
  ∀ field, field ∈ required_fields → r1 !! field = r2 !! field.

(** The codes the specification enumerates for the description table. *)
Definition documented_codes : list Z :=
  [0; 1; 2; 3; 45; 48; 51; 53; 55; 61; 63; 65; 71; 73; 75; 77;
   80; 81; 82; 85; 86; 95; 96; 99].

(** A record with its two coordinate fields replaced; [None] stays. *)
Definition with_coordinates (latitude longitude : pyval) (v : pyval) : pyval :=
  match v with
  | PDict record =>
      PDict (<["latitude" := latitude]> (<["longitude" := longitude]> record))
  | _ => v
  end.

(** A computation raises, if at all, an instance of [Exception]. *)
Definition raises_only_Exception {A} (r : result A) : Prop :=
  ∀ e, r = Raise e → is_Exception (exn_cls e) = true.

(** The failures of the transport and of the decoder are instances of
    [Exception]: connection errors, timeouts, [HTTPError] for a
    non-success status, [JSONDecodeError] for a malformed body. *)
Definition failures_are_Exceptions (E : env) : Prop :=
  ∀ url params timeout,
    raises_only_Exception (requests_get E url params timeout)
    ∧ ∀ response, requests_get E url params timeout = Ret response →
        raises_only_Exception (raise_for_status response)
        ∧ raises_only_Exception (json response).

Definition result_map {A B} (f : A → B) (r : result A) : result B :=
  match r with
  | Ret a => Ret (f a)
  | Raise e => Raise e
  end.

(** The keys of a record as fetch and parse build it. *)
Definition record_keys : gset string :=
  list_to_set
    [ "timestamp"; "latitude"; "longitude"; "temperature"; "humidity";
      "wind_speed"; "wind_direction"; "weather_code"; "city"; "fetch_time" ].

(** The argument that fetch and parse hand to [fromisoformat]:
    [current.get("time", datetime.now().isoformat())], the clock being
    read in state [s]. *)
Definition time_or_now (E : env) (current : dict) (s : state) : pyval :=
  dict_get_default current "time"
    (PStr (isoformat E (wall_clock E (clock_reads s)))).

(** The value is a dict. *)
Definition is_dict (v : pyval) : Prop :=
  match v with PDict _ => True | _ => False end.

(** A float that is no finite number: NaN or an infinity. *)
Definition non_finite (v : pyval) : Prop :=
  v = PFloat FNaN ∨ ∃ negative, v = PFloat (FInf negative).

(* --------------------------------------------------------------------- *)
(* 10. Constants, test fixtures and test doubles                         *)
(* --------------------------------------------------------------------- *)

(** A float literal, given as the exact value [n / d] of the double that
    the literal denotes. *)
Definition float_lit (n : Z) (d : positive) : pyval := PFloat (FFinite (n # d)).

(** [CALGARY_LAT = 51.0447] and [CALGARY_LON = -114.0719]. *)
Definition CALGARY_LAT : pyval := float_lit 7183902871851211 140737488355328.
Definition CALGARY_LON : pyval := float_lit (-4013548174480035) 35184372088832.
Definition WEATHER_API_URL : string := "https://api.open-meteo.com/v1/forecast".

(** The literals [-5.2], [15.5], [51.05] and [-114.05]. *)
Definition lit_m5_2 : pyval := float_lit (-5854679515581645) 1125899906842624.
Definition lit_15_5 : pyval := float_lit 31 2.
Definition lit_51_05 : pyval := float_lit 3592324390269747 70368744177664.
Definition lit_m114_05 : pyval := float_lit (-8025555273462579) 70368744177664.

(** [datetime(2025, 1, 28, 10, 0)]. *)
Definition dt_2025_01_28_10_00 : datetime := mkDatetime 2025 1 28 10 0 0 0.

(** The raw response of scenario A (the fixture [sample_api_response]
    of the tests without its [timezone] entry). *)
Definition scenario_A_current : dict := list_to_map
  [ ("time", PStr "2025-01-28T10:00");
    ("temperature_2m", lit_m5_2);
    ("relative_humidity_2m", PInt 72);
    ("wind_speed_10m", lit_15_5);
    ("wind_direction_10m", PInt 270);
    ("weather_code", PInt 3) ].

Definition scenario_A_response : dict := list_to_map
  [ ("latitude", lit_51_05);
    ("longitude", lit_m114_05);
    ("current", PDict scenario_A_current) ].

(** The fixture [valid_weather_record] of the tests. *)
Definition valid_weather_record : dict := list_to_map
  [ ("timestamp", PDatetime dt_2025_01_28_10_00);
    ("latitude", CALGARY_LAT);
    ("longitude", CALGARY_LON);
    ("temperature", lit_m5_2);
    ("humidity", PInt 72);
    ("wind_speed", lit_15_5);
    ("wind_direction", PInt 270);
    ("weather_code", PInt 3);
    ("city", PStr "Calgary");
    ("fetch_time", PDatetime (mkDatetime 2025 1 28 10 5 0 0)) ].

(** The same observation with the optional fields and [fetch_time]
    set to [None]. *)
Definition bare_weather_record : dict := list_to_map
  [ ("timestamp", PDatetime dt_2025_01_28_10_00);
    ("latitude", CALGARY_LAT);
    ("longitude", CALGARY_LON);
    ("temperature", lit_m5_2);
    ("humidity", PNone);
    ("wind_speed", PNone);
    ("wind_direction", PNone);
    ("weather_code", PNone);
    ("city", PStr "Calgary");
    ("fetch_time", PNone) ].

(** A record as [parse_weather_response] builds it from a body whose
    top-level [latitude] is the JSON string ["51.05"]. *)
Definition string_latitude_record : dict :=
  <["latitude" := PStr "51.05"]> valid_weather_record.

(** A decimal digit, and a run of digits read as a number. *)
Definition digit_value (c : ascii) : option Z :=
  let n := Z.of_nat (nat_of_ascii c) - 48 in
  if (0 <=? n) && (n <=? 9) then Some n else None.

Fixpoint digits_value (acc : Z) (text : string) : option Z :=
  match text with
  | EmptyString => Some acc
  | String c rest =>
      match digit_value c with
      | Some n => digits_value (10 * acc + n) rest
      | None => None
      end
  end.

(** A reader for the one shape [YYYY-MM-DDTHH:MM], standing in for
    [datetime.fromisoformat] in the test doubles. *)
Definition iso_minutes (text : string) : option datetime :=
  if negb (Nat.eqb (String.length text) 16) then None else
  if negb (String.eqb (substring 4 1 text) "-"
           && String.eqb (substring 7 1 text) "-"
           && String.eqb (substring 10 1 text) "T"
           && String.eqb (substring 13 1 text) ":") then None else
  match digits_value 0 (substring 0 4 text),
        digits_value 0 (substring 5 2 text),
        digits_value 0 (substring 8 2 text),
        digits_value 0 (substring 11 2 text),
        digits_value 0 (substring 14 2 text) with
  | Some y, Some mo, Some d, Some h, Some mi => Some (mkDatetime y mo d h mi 0 0)
  | _, _, _, _, _ => None
  end.

(** A transport double in the manner of the tests' [Mock]: the request
    succeeds, the status is fine and the body decodes to [body]. *)
Definition mock_get_ok (body : pyval) : string → dict → Z → result Response :=
  λ _ _ _, Ret (mkResponse (Ret tt) (Ret body)).

(** A transport double whose [requests.get] raises, as in
    [test_api_timeout]. *)
Definition mock_get_raises (e : exn) : string → dict → Z → result Response :=
  λ _ _ _, Raise e.

(** A clock double: the k-th reading is k minutes past 10:05. *)
Definition mock_clock (k : nat) : datetime :=
  mkDatetime 2025 1 28 10 (5 + Z.of_nat k) 0 0.

Definition mock_env (get : string → dict → Z → result Response) : env :=
  mkEnv get iso_minutes (λ _, "2025-01-28T10:05") mock_clock.

Definition initial_state : state := mkState 0 [].

(* --------------------------------------------------------------------- *)
(* 11. validate_weather_record: properties                               *)
(* --------------------------------------------------------------------- *)

Lemma fields_present_true (record : dict) (fields : list string) :
  fields_present record fields = true ↔
  ∀ field, field ∈ fields → ∃ v, record !! field = Some v ∧ v ≠ PNone.
Proof.
  induction fields as [|f rest IH]; simpl.
  - split; [intros _ field Hin; inversion Hin | done].
  - destruct (record !! f) as [v|] eqn:Hf.
    + destruct v; simpl;
        try (rewrite IH; split;
             [ intros H field Hin; apply elem_of_cons in Hin as [->|Hin];
               [eexists; split; [exact Hf | discriminate] | by apply H]
             | intros H field Hin; apply H; by right ]).
      split; [done|]. intros H.
      destruct (H f) as (v & Hv & Hne); [by left|]. congruence.
    + split; [done|]. intros H.
      destruct (H f) as (v & Hv & _); [by left|]. congruence.
Qed.

Lemma fields_present_complete (record : dict) :
  fields_present record required_fields = true ↔ complete record.
Proof. apply fields_present_true. Qed.

Lemma fields_present_agree (r1 r2 : dict) (fields : list string) :
  (∀ field, field ∈ fields → r1 !! field = r2 !! field) →
  fields_present r1 fields = fields_present r2 fields.
Proof.
  induction fields as [|f rest IH]; intros H; simpl; [done|].
  rewrite <- (H f) by (by left).
  rewrite IH; [done|]. intros field Hin. apply H. by right.
Qed.

Lemma chained_le_true (lo hi : Z) (v : pyval) :
  chained_le lo v hi = Ret true ↔ in_closed_interval lo hi v.
Proof.
  unfold chained_le, in_closed_interval.
  destruct v as [ |b|z|[q|negative| ]|s|d|l|m]; simpl;
    try (split; [discriminate | intros (q' & Hq & _); discriminate]).
  - destruct (lo <=? Z.b2z b) eqn:H1; simpl.
    + split.
      * intros [= H2]. eexists; split; [done|].
        rewrite <- !Zle_Qle. lia.
      * intros (q & [= <-] & _ & H2). rewrite <- Zle_Qle in H2.
        f_equal. lia.
    + split; [discriminate|].
      intros (q & [= <-] & H2 & _). rewrite <- Zle_Qle in H2. lia.
  - destruct (lo <=? z) eqn:H1; simpl.
    + split.
      * intros [= H2]. eexists; split; [done|].
        rewrite <- !Zle_Qle. lia.
      * intros (q & [= <-] & _ & H2). rewrite <- Zle_Qle in H2.
        f_equal. lia.
    + split; [discriminate|].
      intros (q & [= <-] & H2 & _). rewrite <- Zle_Qle in H2. lia.
  - destruct (Qle_bool (inject_Z lo) q) eqn:H1; simpl.
    + split.
      * intros [= H2]. exists q. split; [done|].
        by rewrite <- !Qle_bool_iff.
      * intros (q' & [= <-] & _ & H2). f_equal. by apply Qle_bool_iff.
    + split; [discriminate|].
      intros (q' & [= <-] & H2 & _). apply Qle_bool_iff in H2. congruence.
  - destruct negative; simpl; (split; [discriminate|]);
      intros (q' & Hq & _); discriminate.
Qed.

Lemma chained_le_number (lo hi : Z) (v : pyval) :
  is_number v → ∃ b, chained_le lo v hi = Ret b.
Proof.
  unfold chained_le.
  destruct v as [ |b|z|f|s|d|l|m]; simpl; try done; intros _.
  - destruct (lo <=? Z.b2z b); simpl; eauto.
  - destruct (lo <=? z); simpl; eauto.
  - destruct (int_le_float lo f); simpl; eauto.
Qed.

Lemma chained_le_outside (lo hi : Z) (v : pyval) :
  strictly_outside lo hi v → chained_le lo v hi = Ret false.
Proof.
  intros Hout.
  assert (Hnum : is_number v).
  { destruct Hout as [(q & Hq & _)|(negative & ->)]; [|done].
    destruct v as [ |b|z|[q'|negative| ]|s|d|l|m]; try done. }
  destruct (chained_le_number lo hi v Hnum) as [[|] Hb]; [|done].
  exfalso. apply chained_le_true in Hb as (q & Hq & H1 & H2).
  destruct Hout as [(q' & Hq' & Hout)|(negative & ->)]; [|discriminate].
  rewrite Hq in Hq'. injection Hq' as <-.
  destruct Hout as [Hout|Hout].
  - by apply (Qlt_not_le _ _ Hout).
  - by apply (Qlt_not_le _ _ Hout).
Qed.

Lemma validate_complete (record : dict) (lat lon temp : pyval) :
  complete record →
  record !! "latitude" = Some lat →
  record !! "longitude" = Some lon →
  record !! "temperature" = Some temp →
  validate_weather_record (Some record) =
    (let! ok_lat := chained_le (-90) lat 90 in
     if negb ok_lat then Ret false else
     let! ok_lon := chained_le (-180) lon 180 in
     if negb ok_lon then Ret false else
     let! ok_temp := chained_le (-100) temp 60 in
     if negb ok_temp then Ret false else Ret true).
Proof.
  intros Hc Hlat Hlon Htemp. unfold validate_weather_record.
  apply fields_present_complete in Hc. rewrite Hc. simpl.
  unfold dict_getitem. by rewrite Hlat, Hlon, Htemp.
Qed.

Example valid_weather_record_complete : complete valid_weather_record.
Proof. by apply fields_present_complete. Qed.

Example test_valid_record :
  validate_weather_record (Some valid_weather_record) = Ret true.
Proof. reflexivity. Qed.

(** C1: on a record that holds every required field with a non-null
    value, validate returns true exactly when latitude lies in [-90, 90],
    longitude in [-180, 180] and temperature in [-100, 60]; the six
    bounds themselves lie in their intervals, and when the three values
    are numbers and one of them is strictly outside its interval,
    validate returns false. *)
Theorem validate_closed_intervals (record : dict) (lat lon temp : pyval) :
  complete record →
  record !! "latitude" = Some lat →
  record !! "longitude" = Some lon →
  record !! "temperature" = Some temp →
  (validate_weather_record (Some record) = Ret true ↔
     in_closed_interval (-90) 90 lat ∧
     in_closed_interval (-180) 180 lon ∧
     in_closed_interval (-100) 60 temp)
  ∧ (in_closed_interval (-90) 90 (PInt (-90)) ∧
     in_closed_interval (-90) 90 (PInt 90) ∧
     in_closed_interval (-180) 180 (PInt (-180)) ∧
     in_closed_interval (-180) 180 (PInt 180) ∧
     in_closed_interval (-100) 60 (PInt (-100)) ∧
     in_closed_interval (-100) 60 (PInt 60))
  ∧ (is_number lat → is_number lon → is_number temp →
     strictly_outside (-90) 90 lat ∨
     strictly_outside (-180) 180 lon ∨
     strictly_outside (-100) 60 temp →
     validate_weather_record (Some record) = Ret false).
Proof.
  intros Hc Hlat Hlon Htemp.
  rewrite (validate_complete record lat lon temp Hc Hlat Hlon Htemp).
  split; [|split].
  - rewrite <- !chained_le_true.
    destruct (chained_le (-90) lat 90) as [[|]|e1]; simpl;
      [|split; [discriminate | intros (H & _); discriminate]..].
    destruct (chained_le (-180) lon 180) as [[|]|e2]; simpl;
      [|split; [discriminate | intros (_ & H & _); discriminate]..].
    destruct (chained_le (-100) temp 60) as [[|]|e3]; simpl;
      [|split; [discriminate | intros (_ & _ & H); discriminate]..].
    done.
  - repeat split;
      (eexists; split; [reflexivity|]; rewrite <- !Zle_Qle; lia).
  - intros Nlat Nlon Ntemp Hout.
    destruct (chained_le_number (-90) 90 lat Nlat) as [b1 H1].
    destruct (chained_le_number (-180) 180 lon Nlon) as [b2 H2].
    destruct (chained_le_number (-100) 60 temp Ntemp) as [b3 H3].
    destruct Hout as [Hout|[Hout|Hout]];
      apply chained_le_outside in Hout.
    + rewrite Hout. done.
    + rewrite H1, Hout. by destruct b1.
    + rewrite H1, H2, Hout. by destruct b1, b2.
Qed.

Lemma validate_closed_intervals_witness :
  validate_weather_record (Some valid_weather_record) = Ret true ↔
    in_closed_interval (-90) 90 CALGARY_LAT ∧
    in_closed_interval (-180) 180 CALGARY_LON ∧
    in_closed_interval (-100) 60 lit_m5_2.
Proof.
  apply (validate_closed_intervals valid_weather_record
           CALGARY_LAT CALGARY_LON lit_m5_2).
  - apply fields_present_complete. vm_compute. reflexivity.
  - vm_compute. reflexivity.
  - vm_compute. reflexivity.
  - vm_compute. reflexivity.
Defined.

(** The boundary records of [test_edge_case_valid_coordinates]. *)
Example test_edge_case_valid_coordinates :
  validate_weather_record
    (Some (<["latitude" := PInt 90]> (<["longitude" := PInt 180]>
       valid_weather_record))) = Ret true
  ∧ validate_weather_record
    (Some (<["latitude" := PInt (-90)]> (<["longitude" := PInt (-180)]>
       valid_weather_record))) = Ret true.
Proof. split; reflexivity. Qed.

Example test_invalid_temperature :
  validate_weather_record
    (Some (<["temperature" := PInt 100]> valid_weather_record)) = Ret false
  ∧ validate_weather_record
    (Some (<["temperature" := PInt (-150)]> valid_weather_record)) = Ret false.
Proof. split; reflexivity. Qed.

Example nan_latitude_rejected :
  validate_weather_record
    (Some (<["latitude" := PFloat FNaN]> valid_weather_record)) = Ret false.
Proof. reflexivity. Qed.

(** C4: validate of the absent record is false, and validate of a record
    in which a required field is missing or holds None is false. *)
Theorem validate_missing_or_null (record : dict) (field : string) :
  field ∈ required_fields →
  record !! field = None ∨ record !! field = Some PNone →
  validate_weather_record None = Ret false
  ∧ validate_weather_record (Some record) = Ret false.
Proof.
  intros Hin Hf. split; [reflexivity|].
  unfold validate_weather_record.
  destruct (fields_present record required_fields) eqn:Hp; [|done].
  exfalso.
  destruct (proj1 (fields_present_true _ _) Hp field Hin) as (v & Hv & Hne).
  destruct Hf as [Hf|Hf]; congruence.
Qed.

Lemma validate_missing_or_null_witness :
  validate_weather_record None = Ret false
  ∧ validate_weather_record
      (Some (delete "temperature" valid_weather_record)) = Ret false.
Proof.
  apply (validate_missing_or_null
           (delete "temperature" valid_weather_record) "temperature").
  - vm_compute. do 3 right. left.
  - left. vm_compute. reflexivity.
Defined.

Example test_none_required_field :
  validate_weather_record
    (Some (<["latitude" := PNone]> valid_weather_record)) = Ret false.
Proof. reflexivity. Qed.

(** C8, at a record whose latitude is a string: validate does not return
    a boolean there, the comparison [-90 <= record["latitude"]] raises
    TypeError. *)
Theorem validate_raises_on_string_latitude :
  complete string_latitude_record
  ∧ validate_weather_record (Some string_latitude_record) =
      Raise (unorderable "<=")
  ∧ exn_cls (unorderable "<=") = TypeError.
Proof.
  split; [|split; reflexivity].
  apply fields_present_complete. vm_compute. reflexivity.
Qed.

(** C9: two records that agree on timestamp, latitude, longitude,
    temperature and city receive the same result from validate, whatever
    their other fields hold. *)
Theorem validate_only_reads_required (r1 r2 : dict) :
  agree_on_required r1 r2 →
  validate_weather_record (Some r1) = validate_weather_record (Some r2).
Proof.
  intros H. unfold validate_weather_record, dict_getitem.
  rewrite (fields_present_agree r1 r2 required_fields H).
  rewrite !(H "latitude"), !(H "longitude"), !(H "temperature");
    [done | unfold required_fields; set_solver..].
Qed.

Lemma validate_only_reads_required_witness :
  validate_weather_record (Some valid_weather_record) =
  validate_weather_record (Some bare_weather_record).
Proof.
  apply (validate_only_reads_required valid_weather_record bare_weather_record).
  intros field Hin.
  repeat (apply elem_of_cons in Hin as [->|Hin]; [vm_compute; reflexivity|]).
  inversion Hin.
Defined.

(* --------------------------------------------------------------------- *)
(* 12. get_weather_description: properties                               *)
(* --------------------------------------------------------------------- *)

Lemma weather_codes_keys : weather_codes_items.*1 = documented_codes.
Proof. reflexivity. Qed.

Lemma documented_codes_NoDup : NoDup documented_codes.
Proof. apply (bool_decide_unpack _). vm_compute. reflexivity. Qed.

Lemma table_entry_described (code : Z) (description : string) :
  (code, description) ∈ weather_codes_items →
  get_weather_description code = description.
Proof.
  intros Hin. unfold get_weather_description, weather_codes.
  assert (Hl : (list_to_map weather_codes_items : gmap Z string) !! code
               = Some description).
  { apply elem_of_list_to_map_1; [|done].
    rewrite weather_codes_keys. apply documented_codes_NoDup. }
  by rewrite Hl.
Qed.

Lemma describe_unmapped (code : Z) :
  code ∉ documented_codes → get_weather_description code = "Unknown".
Proof.
  intros Hnot. unfold get_weather_description, weather_codes.
  assert (Hl : (list_to_map weather_codes_items : gmap Z string) !! code
               = None).
  { apply not_elem_of_list_to_map. by rewrite weather_codes_keys. }
  by rewrite Hl.
Qed.

(** C2, as the specification counts: the enumeration of known codes does
    not have 23 members, and neither has the table. *)
Lemma known_codes_are_not_23 :
  ¬ (length documented_codes = 23%nat) ∧ ¬ (size weather_codes = 23%nat).
Proof. split; vm_compute; discriminate. Qed.

(** C2, amended: the table holds 24 codes, the ones enumerated, each
    mapped to its fixed string (0 to "Clear sky", 3 to "Overcast", 99 to
    "Thunderstorm with heavy hail"); every other integer, negative ones
    included, is mapped to "Unknown"; a string is returned in all cases. *)
Theorem describe_table (code : Z) :
  length documented_codes = 24%nat
  ∧ dom weather_codes = list_to_set documented_codes
  ∧ (∀ description, (code, description) ∈ weather_codes_items →
       get_weather_description code = description)
  ∧ (code ∈ documented_codes → get_weather_description code ≠ "Unknown")
  ∧ (code ∉ documented_codes → get_weather_description code = "Unknown")
  ∧ (code < 0 → get_weather_description code = "Unknown")
  ∧ get_weather_description 0 = "Clear sky"
  ∧ get_weather_description 3 = "Overcast"
  ∧ get_weather_description 99 = "Thunderstorm with heavy hail".
Proof.
  split; [reflexivity|].
  split; [unfold weather_codes; by rewrite dom_list_to_map_L, weather_codes_keys|].
  split; [intros d; apply table_entry_described|].
  split.
  { intros Hin. rewrite <- weather_codes_keys in Hin.
    apply list_elem_of_fmap in Hin as ([c d] & -> & Hin). simpl.
    rewrite (table_entry_described c d Hin).
    revert Hin. unfold weather_codes_items.
    rewrite !elem_of_cons, elem_of_nil.
    intros H; repeat (destruct H as [[= -> ->]|H]; [discriminate|]); done. }
  split; [apply describe_unmapped|].
  split; [|repeat split].
  intros Hneg. apply describe_unmapped. unfold documented_codes.
  rewrite !elem_of_cons, elem_of_nil. lia.
Qed.

Lemma describe_table_witness :
  get_weather_description 999 = "Unknown"
  ∧ get_weather_description (-1) = "Unknown"
  ∧ get_weather_description 73 = "Moderate snow".
Proof.
  split; [|split].
  - destruct (describe_table 999) as (_ & _ & _ & _ & H & _). apply H.
    unfold documented_codes. rewrite !elem_of_cons, elem_of_nil. lia.
  - destruct (describe_table (-1)) as (_ & _ & _ & _ & _ & H & _). apply H.
    lia.
  - destruct (describe_table 73) as (_ & _ & H & _). apply H.
    unfold weather_codes_items. rewrite !elem_of_cons.
    do 13 right. left. reflexivity.
Defined.

(** The cases of [test_known_weather_codes] and
    [test_unknown_weather_code]. *)
Example test_known_weather_codes :
  map get_weather_description [0; 1; 2; 3; 45; 61; 71; 95] =
  ["Clear sky"; "Mainly clear"; "Partly cloudy"; "Overcast"; "Fog";
   "Slight rain"; "Slight snow"; "Thunderstorm"].
Proof. reflexivity. Qed.

(* --------------------------------------------------------------------- *)
(* 13. fetch_weather_data and parse_weather_response: properties         *)
(* --------------------------------------------------------------------- *)

Lemma try_except_Exception_caught {A} (body : M A) (handler : exn → M A)
    (s : state) (e : exn) :
  (body s).1 = Raise e →
  is_Exception (exn_cls e) = true →
  try_except_Exception body handler s = handler e (body s).2.
Proof.
  unfold try_except_Exception. destruct (body s) as [[a|e'] s']; simpl;
    [discriminate|]. intros [= ->] ->. done.
Qed.

Lemma try_except_Exception_ret {A} (body : M A) (handler : exn → M A)
    (s : state) (a : A) :
  (body s).1 = Ret a →
  try_except_Exception body handler s = body s.
Proof.
  unfold try_except_Exception. destruct (body s) as [[a'|e'] s']; simpl;
    [done | discriminate].
Qed.

Lemma getattr_get_Exception (v : pyval) :
  raises_only_Exception (getattr_get v).
Proof. intros e. destruct v; simpl; intros [= <-]; done. Qed.

Lemma datetime_fromisoformat_Exception (E : env) (v : pyval) :
  raises_only_Exception (datetime_fromisoformat E v).
Proof.
  intros e. destruct v; simpl; try (intros [= <-]; done).
  destruct (parse_iso E s); intros [= <-]; done.
Qed.

(** Whatever the [try] block of fetch returns is a record. *)
Lemma fetch_try_returns_record (E : env)
    (latitude longitude : pyval) (city timezone api_url : string)
    (timeout : Z) (s : state) (v : pyval) :
  (fetch_weather_data_try E latitude longitude city timezone api_url
     timeout s).1 = Ret v →
  ∃ record, v = PDict record
    ∧ record !! "latitude" = Some latitude
    ∧ record !! "longitude" = Some longitude
    ∧ record !! "city" = Some (PStr city).
Proof.
  unfold fetch_weather_data_try, M_bind, lift, M_ret, datetime_now.
  destruct (requests_get E _ _ _) as [response|e]; simpl; [|discriminate].
  destruct (raise_for_status response) as [[]|e]; simpl; [|discriminate].
  destruct (json response) as [data|e]; simpl; [|discriminate].
  destruct (getattr_get data) as [data_get|e]; simpl; [|discriminate].
  destruct (getattr_get _) as [current_get|e]; simpl; [|discriminate].
  destruct (datetime_fromisoformat E _) as [timestamp|e]; simpl;
    [|discriminate].
  intros [= <-]. eexists. split; [reflexivity|].
  split; [|split]; reflexivity.
Qed.

(** What the [try] block of fetch raises is an instance of [Exception]
    when the failures of the collaborators are. *)
Lemma fetch_try_raises_Exception (E : env)
    (latitude longitude : pyval) (city timezone api_url : string)
    (timeout : Z) (s : state) :
  failures_are_Exceptions E →
  raises_only_Exception
    (fetch_weather_data_try E latitude longitude city timezone api_url
       timeout s).1.
Proof.
  intros HE e.
  destruct (HE api_url (request_params latitude longitude timezone) timeout)
    as [Hget Hresp].
  unfold fetch_weather_data_try, M_bind, lift, M_ret, datetime_now.
  destruct (requests_get E _ _ _) as [response|e0] eqn:Hr; simpl;
    [|intros [= <-]; by apply Hget].
  destruct (Hresp response eq_refl) as [Hstatus Hjson].
  destruct (raise_for_status response) as [[]|e0]; simpl;
    [|intros [= <-]; by apply Hstatus].
  destruct (json response) as [data|e0]; simpl;
    [|intros [= <-]; by apply Hjson].
  destruct (getattr_get data) as [data_get|e0] eqn:Hd; simpl;
    [|intros [= <-]; by apply (getattr_get_Exception data)].
  destruct (getattr_get (dict_get_default _ _ _))
    as [current_get|e0] eqn:Hc; simpl;
    [|intros [= <-]; by eapply getattr_get_Exception].
  destruct (datetime_fromisoformat E _) as [timestamp|e0] eqn:Ht; simpl;
    [discriminate|intros [= <-]; by eapply datetime_fromisoformat_Exception].
Qed.

(** C3: when the failures of the transport and of the decoder are
    instances of Exception, fetch returns, never raises: whatever the
    try block raises (the request raising, raise_for_status raising on a
    non-success status, json() raising on a malformed body, or a later
    step failing on the decoded body) ends as the result None. *)
Theorem fetch_never_raises (E : env)
    (latitude longitude : pyval) (city timezone api_url : string)
    (timeout : Z) (s : state) :
  failures_are_Exceptions E →
  let params := request_params latitude longitude timezone in
  let fetched :=
    (fetch_weather_data E latitude longitude city timezone api_url
       timeout s).1 in
  (∃ v, fetched = Ret v ∧ (v = PNone ∨ ∃ record, v = PDict record))
  ∧ (∀ e, (fetch_weather_data_try E latitude longitude city timezone
             api_url timeout s).1 = Raise e → fetched = Ret PNone)
  ∧ (∀ e, requests_get E api_url params timeout = Raise e →
          fetched = Ret PNone)
  ∧ (∀ response e, requests_get E api_url params timeout = Ret response →
          raise_for_status response = Raise e → fetched = Ret PNone)
  ∧ (∀ response e, requests_get E api_url params timeout = Ret response →
          raise_for_status response = Ret tt →
          json response = Raise e → fetched = Ret PNone).
Proof.
  intros HE params fetched.
  pose proof (fetch_try_raises_Exception E latitude longitude city timezone
                api_url timeout s HE) as Hexc.
  assert (Hcaught : ∀ e,
    (fetch_weather_data_try E latitude longitude city timezone api_url
       timeout s).1 = Raise e → fetched = Ret PNone).
  { intros e He. unfold fetched, fetch_weather_data.
    rewrite (try_except_Exception_caught _ _ s e He (Hexc e He)). done. }
  split; [|split; [exact Hcaught|]].
  - destruct (fetch_weather_data_try E latitude longitude city timezone
                api_url timeout s).1 as [v|e] eqn:Hbody.
    + exists v. split.
      * unfold fetched, fetch_weather_data.
        by rewrite (try_except_Exception_ret _ _ s v Hbody).
      * right. destruct (fetch_try_returns_record _ _ _ _ _ _ _ _ _ Hbody)
          as (record & -> & _). by exists record.
    + exists PNone. split; [by apply (Hcaught e) | by left].
  - split; [|split].
    + intros e He. apply (Hcaught e).
      unfold fetch_weather_data_try, M_bind, lift. fold params.
      by rewrite He.
    + intros response e Hr He. apply (Hcaught e).
      unfold fetch_weather_data_try, M_bind, lift. fold params.
      rewrite Hr. simpl. by rewrite He.
    + intros response e Hr Hs He. apply (Hcaught e).
      unfold fetch_weather_data_try, M_bind, lift. fold params.
      rewrite Hr. simpl. rewrite Hs. simpl. by rewrite He.
Qed.

Lemma mock_env_failures_are_Exceptions (e : exn) :
  is_Exception (exn_cls e) = true →
  failures_are_Exceptions (mock_env (mock_get_raises e)).
Proof.
  intros He url params timeout. split.
  - intros e' [= <-]. exact He.
  - intros response Hr. discriminate Hr.
Qed.

(** Scenario B of the specification, [test_api_timeout] of the tests. *)
Lemma fetch_never_raises_witness :
  (fetch_weather_data
     (mock_env (mock_get_raises (mkExn PlainException "Connection timeout")))
     CALGARY_LAT CALGARY_LON "Calgary" "America/Edmonton" WEATHER_API_URL 10
     initial_state).1 = Ret PNone.
Proof.
  destruct (fetch_never_raises
    (mock_env (mock_get_raises (mkExn PlainException "Connection timeout")))
    CALGARY_LAT CALGARY_LON "Calgary" "America/Edmonton" WEATHER_API_URL 10
    initial_state) as (_ & _ & H & _).
  - apply mock_env_failures_are_Exceptions. reflexivity.
  - apply (H (mkExn PlainException "Connection timeout")). reflexivity.
Defined.

(** Scenario C of the specification, [test_api_error_response]. *)
Example test_api_error_response :
  (fetch_weather_data
     (mock_env (λ _ _ _, Ret (mkResponse
        (Raise (mkExn HTTPError "404 Not Found")) (Ret PNone))))
     CALGARY_LAT CALGARY_LON "Calgary" "America/Edmonton" WEATHER_API_URL 10
     initial_state)
  = (Ret PNone,
     mkState 0 ["Error fetching weather data: 404 Not Found"]).
Proof. reflexivity. Qed.

(** What is not an instance of [Exception] passes the handler. *)
Example fetch_KeyboardInterrupt_passes :
  (fetch_weather_data
     (mock_env (mock_get_raises (mkExn KeyboardInterrupt "")))
     CALGARY_LAT CALGARY_LON "Calgary" "America/Edmonton" WEATHER_API_URL 10
     initial_state).1 = Raise (mkExn KeyboardInterrupt "").
Proof. reflexivity. Qed.

(** C10: a record that fetch returns holds, under latitude and longitude,
    the arguments of the call, whatever the body of the response holds
    at its top level. *)
Theorem fetch_keeps_caller_coordinates (E : env)
    (latitude longitude : pyval) (city timezone api_url : string)
    (timeout : Z) (s : state) (record : dict) :
  (fetch_weather_data E latitude longitude city timezone api_url
     timeout s).1 = Ret (PDict record) →
  record !! "latitude" = Some latitude
  ∧ record !! "longitude" = Some longitude.
Proof.
  unfold fetch_weather_data, try_except_Exception.
  destruct (fetch_weather_data_try E latitude longitude city timezone
              api_url timeout s) as [[v|e] s'] eqn:Hbody; simpl.
  - intros [= ->].
    destruct (fetch_try_returns_record E latitude longitude city timezone
                api_url timeout s (PDict record)) as (r & [= <-] & H1 & H2 & _).
    + by rewrite Hbody.
    + done.
  - destruct (is_Exception (exn_cls e)); simpl; discriminate.
Qed.

(** [test_custom_coordinates]: the body says 51.05 and -114.05, the
    record holds what the caller passed. *)
Lemma fetch_keeps_caller_coordinates_witness :
  ∃ record,
    (fetch_weather_data (mock_env (mock_get_ok (PDict scenario_A_response)))
       (PInt 40) (PInt (-74)) "New York" "America/Edmonton" WEATHER_API_URL 10
       initial_state).1 = Ret (PDict record)
    ∧ record !! "latitude" = Some (PInt 40)
    ∧ record !! "longitude" = Some (PInt (-74)).
Proof.
  eexists. split; [vm_compute; reflexivity|].
  apply (fetch_keeps_caller_coordinates
           (mock_env (mock_get_ok (PDict scenario_A_response)))
           (PInt 40) (PInt (-74)) "New York" "America/Edmonton"
           WEATHER_API_URL 10 initial_state).
  vm_compute. reflexivity.
Defined.

Lemma truthy_nonempty_dict (m : dict) : m ≠ ∅ → truthy (PDict m) = true.
Proof.
  intros Hne. simpl. destruct (size m) eqn:Hsize; [|done].
  by apply map_size_empty_iff in Hsize.
Qed.

(** C5: parse of the empty mapping is None, parse of a mapping whose
    current entry is the empty mapping is None, and so is parse of any
    mapping whose current entry is missing or empty; nothing is printed
    and the clock is not read. *)
Theorem parse_without_current (E : env) (city : string) (s : state) :
  parse_weather_response E (PDict ∅) city s = (Ret PNone, s)
  ∧ parse_weather_response E (PDict {["current" := PDict ∅]}) city s
      = (Ret PNone, s)
  ∧ ∀ api_response : dict,
      api_response !! "current" = None
      ∨ api_response !! "current" = Some (PDict ∅) →
      parse_weather_response E (PDict api_response) city s = (Ret PNone, s).
Proof.
  split; [reflexivity|]. split; [reflexivity|].
  intros api_response H.
  unfold parse_weather_response, try_except_Exception,
    parse_weather_response_try, M_bind, lift, dict_get_default. simpl.
  by destruct H as [-> | ->].
Qed.

(** [test_parse_missing_current]. *)
Lemma parse_without_current_witness :
  parse_weather_response (mock_env (mock_get_ok PNone))
    (PDict (list_to_map [("latitude", lit_51_05); ("longitude", lit_m114_05)]))
    "Calgary" initial_state = (Ret PNone, initial_state).
Proof.
  apply (parse_without_current (mock_env (mock_get_ok PNone)) "Calgary"
           initial_state).
  left. vm_compute. reflexivity.
Defined.

(** C6: on a response whose body holds a non-empty current object, parse
    and the success path of fetch, run with the same collaborators from
    the same state, build the same record up to the two coordinates: the
    timestamp (from current.time, or from the clock when it is absent),
    the optional fields with their None defaults, the city and the
    fetch_time agree, latitude and longitude come from the parameters in
    fetch and from the top level of the body in parse; both read the
    clock as often, and both end as None when the timestamp does not
    parse. *)
Theorem parse_builds_as_fetch (E : env)
    (latitude longitude : pyval) (city timezone api_url : string)
    (timeout : Z) (s : state)
    (response : Response) (body current : dict) :
  requests_get E api_url (request_params latitude longitude timezone) timeout
    = Ret response →
  raise_for_status response = Ret tt →
  json response = Ret (PDict body) →
  body !! "current" = Some (PDict current) →
  current ≠ ∅ →
  let fetched :=
    fetch_weather_data E latitude longitude city timezone api_url timeout s in
  let parsed := parse_weather_response E (PDict body) city s in
  fetched.1 = result_map (with_coordinates latitude longitude) parsed.1
  ∧ parsed.1 = result_map
      (with_coordinates (dict_get body "latitude") (dict_get body "longitude"))
      fetched.1
  ∧ clock_reads fetched.2 = clock_reads parsed.2
  ∧ (∀ record, parsed.1 = Ret (PDict record) →
       ∃ record', fetched.1 = Ret (PDict record')
         ∧ ∀ key, key ≠ "latitude" → key ≠ "longitude" →
             record' !! key = record !! key).
Proof.
  intros Hget Hstatus Hjson Hcurrent Hne fetched parsed.
  unfold fetched, parsed, fetch_weather_data, parse_weather_response,
    try_except_Exception, fetch_weather_data_try, parse_weather_response_try,
    M_bind, lift, M_ret, datetime_now.
  rewrite Hget. simpl. rewrite Hstatus. simpl. rewrite Hjson. simpl.
  assert (Hd : dict_get_default body "current" (PDict ∅) = PDict current)
    by (unfold dict_get_default; by rewrite Hcurrent).
  rewrite !Hd. rewrite (truthy_nonempty_dict current Hne).
  cbn [negb getattr_get].
  destruct (datetime_fromisoformat E _) as [timestamp|e] eqn:Ht.
  - cbn [fst snd result_map with_coordinates clock_reads].
    split; [|split; [|split]].
    + reflexivity.
    + reflexivity.
    + reflexivity.
    + intros record [= <-]. eexists. split; [reflexivity|].
      intros key Hlat Hlon.
      rewrite !lookup_insert. repeat case_decide; congruence.
  - assert (He : is_Exception (exn_cls e) = true)
      by (by eapply datetime_fromisoformat_Exception).
    cbn [fst snd]. rewrite He.
    cbn [fst snd result_map with_coordinates clock_reads print M_bind M_ret].
    split; [reflexivity|]. split; [reflexivity|]. split; [reflexivity|].
    intros record H. discriminate H.
Qed.

Lemma scenario_A_current_nonempty : scenario_A_current ≠ ∅.
Proof.
  intros H. apply (f_equal (λ m : dict, m !! "time")) in H.
  vm_compute in H. discriminate H.
Qed.

(** [test_successful_fetch] against [test_parse_valid_response]: the
    same body, once fetched for Calgary's coordinates, once parsed. *)
Lemma parse_builds_as_fetch_witness :
  (fetch_weather_data (mock_env (mock_get_ok (PDict scenario_A_response)))
     CALGARY_LAT CALGARY_LON "Calgary" "America/Edmonton" WEATHER_API_URL 10
     initial_state).1
  = result_map (with_coordinates CALGARY_LAT CALGARY_LON)
      (parse_weather_response (mock_env (mock_get_ok (PDict scenario_A_response)))
         (PDict scenario_A_response) "Calgary" initial_state).1.
Proof.
  apply (parse_builds_as_fetch
           (mock_env (mock_get_ok (PDict scenario_A_response)))
           CALGARY_LAT CALGARY_LON "Calgary" "America/Edmonton"
           WEATHER_API_URL 10 initial_state
           (mkResponse (Ret tt) (Ret (PDict scenario_A_response)))
           scenario_A_response scenario_A_current).
  - reflexivity.
  - reflexivity.
  - reflexivity.
  - vm_compute. reflexivity.
  - exact scenario_A_current_nonempty.
Defined.

(** Where the bodies differ from C6's: with an empty or missing current
    object fetch still builds a record, parse does not. *)
Example fetch_builds_record_without_current :
  ∃ record,
    (fetch_weather_data (mock_env (mock_get_ok (PDict ∅)))
       CALGARY_LAT CALGARY_LON "Calgary" "America/Edmonton" WEATHER_API_URL 10
       initial_state).1 = Ret (PDict record)
    ∧ record !! "temperature" = Some PNone
    ∧ (parse_weather_response (mock_env (mock_get_ok (PDict ∅)))
         (PDict ∅) "Calgary" initial_state).1 = Ret PNone.
Proof. eexists. repeat split; vm_compute; reflexivity. Qed.

(** C7: scenario A.  Where fromisoformat reads "2025-01-28T10:00" as a
    datetime, parsing the raw response of scenario A with city "Calgary"
    yields a record, not None, with temperature -5.2, humidity 72,
    weather_code 3 and city "Calgary"; validate of that record is true;
    describe(3) is "Overcast". *)
Theorem end_to_end_scenario_A (E : env) (s : state) (observed : datetime) :
  parse_iso E "2025-01-28T10:00" = Some observed →
  ∃ record,
    (parse_weather_response E (PDict scenario_A_response) "Calgary" s).1
      = Ret (PDict record)
    ∧ record !! "temperature" = Some lit_m5_2
    ∧ record !! "humidity" = Some (PInt 72)
    ∧ record !! "weather_code" = Some (PInt 3)
    ∧ record !! "city" = Some (PStr "Calgary")
    ∧ validate_weather_record (Some record) = Ret true
    ∧ get_weather_description 3 = "Overcast".
Proof.
  intros Hiso.
  unfold parse_weather_response, try_except_Exception,
    parse_weather_response_try, M_bind, lift, M_ret, datetime_now.
  cbn [getattr_get].
  change (dict_get_default scenario_A_response "current" (PDict ∅))
    with (PDict scenario_A_current).
  rewrite (truthy_nonempty_dict _ scenario_A_current_nonempty).
  cbn [negb getattr_get].
  change (dict_get_default scenario_A_current "time" _)
    with (PStr "2025-01-28T10:00").
  cbn [datetime_fromisoformat]. rewrite Hiso. cbn [fst].
  eexists. split; [reflexivity|].
  repeat split; reflexivity.
Qed.

Lemma end_to_end_scenario_A_witness :
  ∃ record,
    (parse_weather_response (mock_env (mock_get_ok PNone))
       (PDict scenario_A_response) "Calgary" initial_state).1
      = Ret (PDict record)
    ∧ record !! "temperature" = Some lit_m5_2
    ∧ record !! "humidity" = Some (PInt 72)
    ∧ record !! "weather_code" = Some (PInt 3)
    ∧ record !! "city" = Some (PStr "Calgary")
    ∧ validate_weather_record (Some record) = Ret true
    ∧ get_weather_description 3 = "Overcast".
Proof.
  apply (end_to_end_scenario_A (mock_env (mock_get_ok PNone)) initial_state
           dt_2025_01_28_10_00).
  vm_compute. reflexivity.
Defined.

(** [test_parse_partial_current_data]: only the time and the temperature
    are present, the other optional fields come out as None. *)
Example test_parse_partial_current_data :
  ∃ record,
    (parse_weather_response (mock_env (mock_get_ok PNone))
       (PDict (list_to_map
          [ ("latitude", lit_51_05); ("longitude", lit_m114_05);
            ("current", PDict (list_to_map
               [ ("time", PStr "2025-01-28T10:00");
                 ("temperature_2m", lit_m5_2) ])) ]))
       "Calgary" initial_state).1 = Ret (PDict record)
    ∧ record !! "temperature" = Some lit_m5_2
    ∧ record !! "humidity" = Some PNone
    ∧ record !! "wind_speed" = Some PNone.
Proof. eexists. repeat split; vm_compute; reflexivity. Qed.

(* --------------------------------------------------------------------- *)
(* 14. validate_weather_record: the three outcomes                       *)
(* --------------------------------------------------------------------- *)

Lemma complete_lookups (record : dict) :
  complete record →
  ∃ lat lon temp,
    record !! "latitude" = Some lat
    ∧ record !! "longitude" = Some lon
    ∧ record !! "temperature" = Some temp.
Proof.
  intros Hc.
  destruct (Hc "latitude") as (lat & Hlat & _);
    [unfold required_fields; set_solver|].
  destruct (Hc "longitude") as (lon & Hlon & _);
    [unfold required_fields; set_solver|].
  destruct (Hc "temperature") as (temp & Htemp & _);
    [unfold required_fields; set_solver|].
  by exists lat, lon, temp.
Qed.

Lemma validate_incomplete (record : dict) :
  ¬ complete record → validate_weather_record (Some record) = Ret false.
Proof.
  intros Hn. unfold validate_weather_record.
  destruct (fields_present record required_fields) eqn:Hp; [|done].
  exfalso. apply Hn. by apply fields_present_complete.
Qed.

Lemma complete_dec (record : dict) : complete record ∨ ¬ complete record.
Proof.
  destruct (fields_present record required_fields) eqn:Hp.
  - left. by apply fields_present_complete.
  - right. intros Hc. apply fields_present_complete in Hc. congruence.
Qed.

Lemma chained_le_raise (lo hi : Z) (v : pyval) (e : exn) :
  chained_le lo v hi = Raise e ↔ ¬ is_number v ∧ e = unorderable "<=".
Proof.
  unfold chained_le.
  destruct v as [ |b|z|f|s|d|l|m]; simpl;
    try (split; [intros [= <-]; split; [tauto | done]
                | intros (_ & ->); done]).
  - destruct (lo <=? Z.b2z b); simpl; (split; [discriminate | tauto]).
  - destruct (lo <=? z); simpl; (split; [discriminate | tauto]).
  - destruct (int_le_float lo f); simpl; (split; [discriminate | tauto]).
Qed.

Lemma chained_le_false (lo hi : Z) (v : pyval) :
  chained_le lo v hi = Ret false ↔
  is_number v ∧ ¬ in_closed_interval lo hi v.
Proof.
  split.
  - intros H. split.
    + destruct v; try done; discriminate H.
    + intros Hin. apply chained_le_true in Hin. congruence.
  - intros (Hnum & Hout).
    destruct (chained_le_number lo hi v Hnum) as [[|] Hb]; [|done].
    exfalso. apply Hout. by apply chained_le_true.
Qed.

(** The outcome of the three comparisons, by cases. *)
Lemma chained_le_cases (lo hi : Z) (v : pyval) :
  (chained_le lo v hi = Ret true ∧ in_closed_interval lo hi v)
  ∨ (chained_le lo v hi = Ret false
     ∧ is_number v ∧ ¬ in_closed_interval lo hi v)
  ∨ (chained_le lo v hi = Raise (unorderable "<=") ∧ ¬ is_number v).
Proof.
  destruct (chained_le lo v hi) as [[|]|e] eqn:H.
  - left. split; [done|]. by apply chained_le_true.
  - right; left. split; [done|]. by apply chained_le_false.
  - right; right. apply chained_le_raise in H as (Hn & ->). done.
Qed.

Lemma in_closed_interval_number (lo hi : Z) (v : pyval) :
  in_closed_interval lo hi v → is_number v.
Proof.
  intros (q & Hq & _).
  destruct v as [ |b|z|[q'|negative| ]|s|d|l|m]; try done.
Qed.

(** validate returns true exactly on the records that hold every
    required field with a non-null value and whose latitude, longitude
    and temperature lie in their closed intervals. *)
Theorem validate_true_iff (record : dict) :
  validate_weather_record (Some record) = Ret true ↔
  complete record
  ∧ ∃ lat lon temp,
      record !! "latitude" = Some lat
      ∧ record !! "longitude" = Some lon
      ∧ record !! "temperature" = Some temp
      ∧ in_closed_interval (-90) 90 lat
      ∧ in_closed_interval (-180) 180 lon
      ∧ in_closed_interval (-100) 60 temp.
Proof.
  split.
  - intros Hv. destruct (complete_dec record) as [Hc|Hn];
      [|rewrite (validate_incomplete record Hn) in Hv; discriminate].
    split; [done|].
    destruct (complete_lookups record Hc) as (lat & lon & temp & H1 & H2 & H3).
    exists lat, lon, temp. repeat (split; [done|]).
    rewrite (validate_complete record lat lon temp Hc H1 H2 H3) in Hv.
    destruct (chained_le_cases (-90) 90 lat) as [[E1 I1]|[[E1 _]|[E1 _]]];
      rewrite E1 in Hv; simpl in Hv; try discriminate.
    destruct (chained_le_cases (-180) 180 lon) as [[E2 I2]|[[E2 _]|[E2 _]]];
      rewrite E2 in Hv; simpl in Hv; try discriminate.
    destruct (chained_le_cases (-100) 60 temp) as [[E3 I3]|[[E3 _]|[E3 _]]];
      rewrite E3 in Hv; simpl in Hv; try discriminate.
    done.
  - intros (Hc & lat & lon & temp & H1 & H2 & H3 & I1 & I2 & I3).
    rewrite (validate_complete record lat lon temp Hc H1 H2 H3).
    apply chained_le_true in I1, I2, I3. by rewrite I1, I2, I3.
Qed.

(** validate returns false exactly when a required field is missing or
    None, or when the first of latitude, longitude, temperature that is
    not in its interval is a number; the fields after it are not looked
    at, whatever they hold. *)
Theorem validate_false_iff (record : dict) :
  validate_weather_record (Some record) = Ret false ↔
  ¬ complete record
  ∨ ∃ lat lon temp,
      record !! "latitude" = Some lat
      ∧ record !! "longitude" = Some lon
      ∧ record !! "temperature" = Some temp
      ∧ ((is_number lat ∧ ¬ in_closed_interval (-90) 90 lat)
         ∨ (in_closed_interval (-90) 90 lat
            ∧ is_number lon ∧ ¬ in_closed_interval (-180) 180 lon)
         ∨ (in_closed_interval (-90) 90 lat
            ∧ in_closed_interval (-180) 180 lon
            ∧ is_number temp ∧ ¬ in_closed_interval (-100) 60 temp)).
Proof.
  destruct (complete_dec record) as [Hc|Hn];
    [|rewrite (validate_incomplete record Hn); split; [by left | done]].
  destruct (complete_lookups record Hc) as (lat & lon & temp & H1 & H2 & H3).
  rewrite (validate_complete record lat lon temp Hc H1 H2 H3).
  split.
  - intros Hv. right. exists lat, lon, temp. repeat (split; [done|]).
    destruct (chained_le_cases (-90) 90 lat) as [[E1 I1]|[[E1 N1]|[E1 _]]];
      rewrite E1 in Hv; simpl in Hv; try discriminate; [|by left].
    destruct (chained_le_cases (-180) 180 lon) as [[E2 I2]|[[E2 N2]|[E2 _]]];
      rewrite E2 in Hv; simpl in Hv; try discriminate;
      [|right; left; tauto].
    destruct (chained_le_cases (-100) 60 temp) as [[E3 I3]|[[E3 N3]|[E3 _]]];
      rewrite E3 in Hv; simpl in Hv; try discriminate.
    right; right. tauto.
  - intros [Hn|(lat' & lon' & temp' & H1' & H2' & H3' & Hcase)]; [done|].
    rewrite H1 in H1'. rewrite H2 in H2'. rewrite H3 in H3'.
    injection H1' as <-. injection H2' as <-. injection H3' as <-.
    destruct Hcase as [N1|[(I1 & N2)|(I1 & I2 & N3)]].
    + apply chained_le_false in N1. by rewrite N1.
    + apply chained_le_true in I1. apply chained_le_false in N2.
      by rewrite I1, N2.
    + apply chained_le_true in I1, I2. apply chained_le_false in N3.
      by rewrite I1, I2, N3.
Qed.

(** validate raises exactly on a record that holds every required field
    with a non-null value and in which the first of latitude, longitude,
    temperature that is not in its interval is not a number; what it
    raises is the TypeError of the comparison, never a KeyError. *)
Theorem validate_raises_iff (record : dict) (e : exn) :
  validate_weather_record (Some record) = Raise e ↔
  e = unorderable "<="
  ∧ complete record
  ∧ ∃ lat lon temp,
      record !! "latitude" = Some lat
      ∧ record !! "longitude" = Some lon
      ∧ record !! "temperature" = Some temp
      ∧ (¬ is_number lat
         ∨ (in_closed_interval (-90) 90 lat ∧ ¬ is_number lon)
         ∨ (in_closed_interval (-90) 90 lat
            ∧ in_closed_interval (-180) 180 lon ∧ ¬ is_number temp)).
Proof.
  destruct (complete_dec record) as [Hc|Hn];
    [|rewrite (validate_incomplete record Hn);
      split; [discriminate | tauto]].
  destruct (complete_lookups record Hc) as (lat & lon & temp & H1 & H2 & H3).
  rewrite (validate_complete record lat lon temp Hc H1 H2 H3).
  split.
  - intros Hv.
    destruct (chained_le_cases (-90) 90 lat) as [[E1 I1]|[[E1 N1]|[E1 N1]]];
      rewrite E1 in Hv; simpl in Hv; try discriminate.
    2:{ injection Hv as <-. split; [done|]. split; [done|].
        exists lat, lon, temp. tauto. }
    destruct (chained_le_cases (-180) 180 lon) as [[E2 I2]|[[E2 N2]|[E2 N2]]];
      rewrite E2 in Hv; simpl in Hv; try discriminate.
    2:{ injection Hv as <-. split; [done|]. split; [done|].
        exists lat, lon, temp. tauto. }
    destruct (chained_le_cases (-100) 60 temp) as [[E3 I3]|[[E3 N3]|[E3 N3]]];
      rewrite E3 in Hv; simpl in Hv; try discriminate.
    injection Hv as <-. split; [done|]. split; [done|].
    exists lat, lon, temp. tauto.
  - intros (-> & _ & lat' & lon' & temp' & H1' & H2' & H3' & Hcase).
    rewrite H1 in H1'. rewrite H2 in H2'. rewrite H3 in H3'.
    injection H1' as <-. injection H2' as <-. injection H3' as <-.
    destruct Hcase as [N1|[(I1 & N2)|(I1 & I2 & N3)]].
    + assert (R : chained_le (-90) lat 90 = Raise (unorderable "<="))
        by (by apply chained_le_raise).
      by rewrite R.
    + apply chained_le_true in I1.
      assert (R : chained_le (-180) lon 180 = Raise (unorderable "<="))
        by (by apply chained_le_raise).
      by rewrite I1, R.
    + apply chained_le_true in I1, I2.
      assert (R : chained_le (-100) temp 60 = Raise (unorderable "<="))
        by (by apply chained_le_raise).
      by rewrite I1, I2, R.
Qed.

Lemma non_finite_number (v : pyval) : non_finite v → is_number v.
Proof. intros [->|(negative & ->)]; done. Qed.

Lemma non_finite_not_in_interval (lo hi : Z) (v : pyval) :
  non_finite v → ¬ in_closed_interval lo hi v.
Proof.
  intros [->|(negative & ->)] (q & Hq & _); discriminate Hq.
Qed.

(** validate ignores what timestamp and city hold beyond their not being
    None: replacing both by any other non-None values, of any type,
    leaves the result as it is. *)
Theorem validate_timestamp_city_untyped (record : dict)
    (timestamp city timestamp' city' : pyval) :
  record !! "timestamp" = Some timestamp → timestamp ≠ PNone →
  record !! "city" = Some city → city ≠ PNone →
  timestamp' ≠ PNone → city' ≠ PNone →
  validate_weather_record
    (Some (<["timestamp" := timestamp']> (<["city" := city']> record)))
  = validate_weather_record (Some record).
Proof.
  intros Ht Hnt Hc Hnc Hnt' Hnc'.
  unfold validate_weather_record, dict_getitem, required_fields.
  cbn [fields_present].
  rewrite lookup_insert_eq, Ht.
  rewrite !(lookup_insert_ne _ "timestamp") by done.
  rewrite lookup_insert_eq, Hc.
  rewrite !(lookup_insert_ne _ "city") by done.
  destruct timestamp; try done; destruct timestamp'; try done;
    destruct city; try done; destruct city'; try done.
Qed.

Lemma validate_timestamp_city_untyped_witness :
  validate_weather_record
    (Some (<["timestamp" := PStr "yesterday"]> (<["city" := PInt 5]>
       valid_weather_record)))
  = validate_weather_record (Some valid_weather_record).
Proof.
  apply (validate_timestamp_city_untyped valid_weather_record
           (PDatetime dt_2025_01_28_10_00) (PStr "Calgary")
           (PStr "yesterday") (PInt 5));
    first [ vm_compute; reflexivity | discriminate ].
Defined.

(** A NaN or an infinity under latitude, longitude or temperature is
    rejected: on a record with every required field, where the three
    values are numbers and one of them is not finite, validate returns
    false. *)
Theorem validate_rejects_non_finite (record : dict) (lat lon temp : pyval) :
  complete record →
  record !! "latitude" = Some lat →
  record !! "longitude" = Some lon →
  record !! "temperature" = Some temp →
  is_number lat → is_number lon → is_number temp →
  non_finite lat ∨ non_finite lon ∨ non_finite temp →
  validate_weather_record (Some record) = Ret false.
Proof.
  intros Hc H1 H2 H3 N1 N2 N3 Hnf.
  rewrite (validate_complete record lat lon temp Hc H1 H2 H3).
  destruct (chained_le_number (-90) 90 lat N1) as [b1 E1].
  destruct (chained_le_number (-180) 180 lon N2) as [b2 E2].
  destruct (chained_le_number (-100) 60 temp N3) as [b3 E3].
  assert (Hfalse : ∀ lo hi v, non_finite v → chained_le lo v hi = Ret false).
  { intros lo hi v Hv. apply chained_le_false.
    split; [by apply non_finite_number
           | by apply non_finite_not_in_interval]. }
  destruct Hnf as [Hnf|[Hnf|Hnf]].
  - by rewrite (Hfalse _ _ _ Hnf).
  - rewrite E1, (Hfalse _ _ _ Hnf). by destruct b1.
  - rewrite E1, E2, (Hfalse _ _ _ Hnf). by destruct b1, b2.
Qed.

Lemma validate_rejects_non_finite_witness :
  validate_weather_record
    (Some (<["temperature" := PFloat FNaN]> valid_weather_record)) = Ret false.
Proof.
  apply (validate_rejects_non_finite
           (<["temperature" := PFloat FNaN]> valid_weather_record)
           CALGARY_LAT CALGARY_LON (PFloat FNaN)).
  - apply fields_present_complete. vm_compute. reflexivity.
  - vm_compute. reflexivity.
  - vm_compute. reflexivity.
  - vm_compute. reflexivity.
  - exact I.
  - exact I.
  - exact I.
  - right. right. left. reflexivity.
Defined.

Lemma validate_true_iff_witness :
  complete valid_weather_record.
Proof.
  apply (proj1 (validate_true_iff valid_weather_record)). reflexivity.
Defined.

Lemma validate_false_iff_witness :
  validate_weather_record
    (Some (<["latitude" := PInt 100]> (<["longitude" := PStr "west"]>
       valid_weather_record))) = Ret false.
Proof.
  apply (proj2 (validate_false_iff _)). right.
  exists (PInt 100), (PStr "west"), lit_m5_2.
  split; [vm_compute; reflexivity|].
  split; [vm_compute; reflexivity|].
  split; [vm_compute; reflexivity|].
  left. split; [exact I|].
  intros (q & [= <-] & _ & H). rewrite <- Zle_Qle in H. lia.
Defined.

Lemma validate_raises_iff_witness :
  complete string_latitude_record.
Proof.
  apply (proj1 (validate_raises_iff string_latitude_record
                  (unorderable "<="))).
  reflexivity.
Defined.

(* --------------------------------------------------------------------- *)
(* 15. parse_weather_response: when it returns what                      *)
(* --------------------------------------------------------------------- *)

Lemma getattr_get_not_dict (v : pyval) :
  ¬ is_dict v →
  getattr_get v = Raise (mkExn AttributeError "object has no attribute 'get'").
Proof. destruct v; simpl; tauto. Qed.

Lemma truthy_dict (m : dict) : truthy (PDict m) = true ↔ m ≠ ∅.
Proof.
  split; [|apply truthy_nonempty_dict].
  intros H ->. simpl in H. rewrite map_size_empty in H. discriminate H.
Qed.

(** The [try] block of parse on what is no dict. *)
Lemma parse_try_not_dict (E : env) (api_response : pyval) (city : string)
    (s : state) :
  ¬ is_dict api_response →
  parse_weather_response_try E api_response city s
  = (Raise (mkExn AttributeError "object has no attribute 'get'"), s).
Proof.
  intros Hn. unfold parse_weather_response_try, M_bind, lift.
  by rewrite (getattr_get_not_dict _ Hn).
Qed.

(** The [try] block of parse on a dict whose current entry is falsy. *)
Lemma parse_try_falsy (E : env) (body : dict) (city : string) (s : state) :
  truthy (dict_get_default body "current" (PDict ∅)) = false →
  parse_weather_response_try E (PDict body) city s = (Ret PNone, s).
Proof.
  intros Hf. unfold parse_weather_response_try, M_bind, lift. simpl.
  by rewrite Hf.
Qed.

(** The [try] block of parse on a dict whose current entry is truthy
    and no dict. *)
Lemma parse_try_current_not_dict (E : env) (body : dict) (city : string)
    (s : state) :
  truthy (dict_get_default body "current" (PDict ∅)) = true →
  ¬ is_dict (dict_get_default body "current" (PDict ∅)) →
  parse_weather_response_try E (PDict body) city s
  = (Raise (mkExn AttributeError "object has no attribute 'get'"), s).
Proof.
  intros Ht Hn. unfold parse_weather_response_try, M_bind, lift. simpl.
  rewrite Ht. simpl. by rewrite (getattr_get_not_dict _ Hn).
Qed.

(** The [try] block of parse on a dict with a non-empty current dict. *)
Lemma parse_try_current (E : env) (body current : dict) (city : string)
    (s : state) :
  body !! "current" = Some (PDict current) →
  current ≠ ∅ →
  parse_weather_response_try E (PDict body) city s
  = match datetime_fromisoformat E (time_or_now E current s) with
    | Ret timestamp =>
        (Ret (PDict (list_to_map
           [ ("timestamp", PDatetime timestamp);
             ("latitude", dict_get body "latitude");
             ("longitude", dict_get body "longitude");
             ("temperature", dict_get current "temperature_2m");
             ("humidity", dict_get current "relative_humidity_2m");
             ("wind_speed", dict_get current "wind_speed_10m");
             ("wind_direction", dict_get current "wind_direction_10m");
             ("weather_code", dict_get current "weather_code");
             ("city", PStr city);
             ("fetch_time",
              PDatetime (wall_clock E (S (clock_reads s)))) ])),
         mkState (S (S (clock_reads s))) (stdout s))
    | Raise e => (Raise e, mkState (S (clock_reads s)) (stdout s))
    end.
Proof.
  intros Hcur Hne.
  unfold parse_weather_response_try, M_bind, lift, M_ret, datetime_now,
    time_or_now.
  cbn [getattr_get].
  assert (Hd : dict_get_default body "current" (PDict ∅) = PDict current)
    by (unfold dict_get_default; by rewrite Hcur).
  rewrite !Hd, (truthy_nonempty_dict current Hne).
  cbn [negb getattr_get clock_reads].
  by destruct (datetime_fromisoformat E _).
Qed.

(** How a dict with its current entry falls under the cases above. *)
Lemma current_cases (body : dict) :
  (∃ current, body !! "current" = Some (PDict current) ∧ current ≠ ∅)
  ∨ truthy (dict_get_default body "current" (PDict ∅)) = false
  ∨ (truthy (dict_get_default body "current" (PDict ∅)) = true
     ∧ ¬ is_dict (dict_get_default body "current" (PDict ∅))).
Proof.
  unfold dict_get_default.
  destruct (body !! "current") as [v|] eqn:Hv; [|right; left; reflexivity].
  change (default (PDict ∅) (Some v)) with v.
  destruct (truthy v) eqn:Ht; [|right; by left].
  destruct v as [ |b|z|f|t|d|l|m];
    try solve [right; right; split; [reflexivity | intros []]].
  left. exists m. split; [done|]. by apply truthy_dict.
Qed.

Lemma is_dict_dec (v : pyval) : is_dict v ∨ ¬ is_dict v.
Proof. destruct v; simpl; tauto. Qed.

(** parse never raises, whatever it is given, a dict or not: it returns
    None or a record. *)
Theorem parse_never_raises (E : env) (api_response : pyval) (city : string)
    (s : state) :
  (parse_weather_response E api_response city s).1 = Ret PNone
  ∨ ∃ record,
      (parse_weather_response E api_response city s).1 = Ret (PDict record).
Proof.
  unfold parse_weather_response, try_except_Exception.
  destruct api_response as [ |b|z|f|t|d|l|body];
    try (rewrite parse_try_not_dict by (intros []); left; reflexivity).
  destruct (current_cases body) as [(current & Hc & Hne)|[Hf|(Ht & Hn)]].
  - rewrite (parse_try_current E body current city s Hc Hne).
    destruct (datetime_fromisoformat E _) as [timestamp|e] eqn:He.
    + right. eexists. reflexivity.
    + left. by rewrite (datetime_fromisoformat_Exception E _ e He).
  - rewrite (parse_try_falsy E body city s Hf). by left.
  - rewrite (parse_try_current_not_dict E body city s Ht Hn). by left.
Qed.

(** parse returns a record exactly when it is given a dict whose current
    entry is a non-empty dict and whose time, or the clock reading taken
    in its place, is read by fromisoformat; the record then holds the
    ten fixed keys, the coordinates from the top level of the response,
    the five measurements from current under their new names (None
    where current has none), the city, and the second clock reading as
    fetch_time. *)
Theorem parse_returns_record_iff (E : env) (api_response : pyval)
    (city : string) (s : state) (record : dict) :
  (parse_weather_response E api_response city s).1 = Ret (PDict record) ↔
  ∃ body current timestamp,
    api_response = PDict body
    ∧ body !! "current" = Some (PDict current)
    ∧ current ≠ ∅
    ∧ datetime_fromisoformat E (time_or_now E current s) = Ret timestamp
    ∧ dom record = record_keys
    ∧ record !! "timestamp" = Some (PDatetime timestamp)
    ∧ record !! "latitude" = Some (dict_get body "latitude")
    ∧ record !! "longitude" = Some (dict_get body "longitude")
    ∧ record !! "temperature" = Some (dict_get current "temperature_2m")
    ∧ record !! "humidity" = Some (dict_get current "relative_humidity_2m")
    ∧ record !! "wind_speed" = Some (dict_get current "wind_speed_10m")
    ∧ record !! "wind_direction"
        = Some (dict_get current "wind_direction_10m")
    ∧ record !! "weather_code" = Some (dict_get current "weather_code")
    ∧ record !! "city" = Some (PStr city)
    ∧ record !! "fetch_time"
        = Some (PDatetime (wall_clock E (S (clock_reads s)))).
Proof.
  unfold parse_weather_response, try_except_Exception.
  split.
  - destruct api_response as [ |b|z|f|t|d|l|body];
      try (rewrite parse_try_not_dict by (intros []); discriminate).
    destruct (current_cases body) as [(current & Hc & Hne)|[Hf|(Ht & Hn)]].
    + rewrite (parse_try_current E body current city s Hc Hne).
      destruct (datetime_fromisoformat E _) as [timestamp|e] eqn:He.
      * intros [= <-]. exists body, current, timestamp.
        repeat (split; [done|]). reflexivity.
      * rewrite (datetime_fromisoformat_Exception E _ e He). discriminate.
    + rewrite (parse_try_falsy E body city s Hf). discriminate.
    + rewrite (parse_try_current_not_dict E body city s Ht Hn). discriminate.
  - intros (body & current & timestamp & -> & Hc & Hne & Hts & Hdom
            & K1 & K2 & K3 & K4 & K5 & K6 & K7 & K8 & K9 & K10).
    rewrite (parse_try_current E body current city s Hc Hne), Hts.
    cbn [fst]. f_equal. f_equal. apply map_eq. intros key.
    destruct (decide (key ∈ record_keys)) as [Hin|Hout].
    + unfold record_keys in Hin. cbn [list_to_set foldr] in Hin.
      rewrite !elem_of_union, !elem_of_singleton, elem_of_empty in Hin.
      destruct Hin as [->|[->|[->|[->|[->|[->|[->|[->|[->|[->|[]]]]]]]]]]];
        symmetry; assumption.
    + transitivity (@None pyval).
      * apply not_elem_of_dom.
        cbn [list_to_map foldr uncurry fst snd].
        rewrite !dom_insert_L, dom_empty_L.
        unfold record_keys in Hout. cbn [list_to_set foldr] in Hout.
        set_solver.
      * symmetry. apply not_elem_of_dom. by rewrite Hdom.
Qed.

Lemma parse_returns_record_iff_witness :
  ∃ record,
    (parse_weather_response (mock_env (mock_get_ok PNone))
       (PDict scenario_A_response) "Calgary" initial_state).1
    = Ret (PDict record).
Proof.
  eexists.
  apply (proj2 (parse_returns_record_iff (mock_env (mock_get_ok PNone))
                  (PDict scenario_A_response) "Calgary" initial_state _)).
  exists scenario_A_response, scenario_A_current, dt_2025_01_28_10_00.
  split; [reflexivity|].
  split; [vm_compute; reflexivity|].
  split; [exact scenario_A_current_nonempty|].
  split; [vm_compute; reflexivity|].
  instantiate (1 := list_to_map
    [ ("timestamp", PDatetime dt_2025_01_28_10_00);
      ("latitude", lit_51_05);
      ("longitude", lit_m114_05);
      ("temperature", lit_m5_2);
      ("humidity", PInt 72);
      ("wind_speed", lit_15_5);
      ("wind_direction", PInt 270);
      ("weather_code", PInt 3);
      ("city", PStr "Calgary");
      ("fetch_time", PDatetime (mock_clock 1)) ]).
  split; [vm_compute; reflexivity|].
  repeat split; vm_compute; reflexivity.
Defined.

(** What parse does to the state: a returned record costs two clock
    readings and prints nothing; a line is printed only together with
    the result None, and it is the line of the handler; the clock is
    read at most twice. *)
Theorem parse_effects (E : env) (api_response : pyval) (city : string)
    (s : state) :
  let outcome := parse_weather_response E api_response city s in
  (∀ record, outcome.1 = Ret (PDict record) →
     outcome.2 = mkState (S (S (clock_reads s))) (stdout s))
  ∧ (stdout outcome.2 = stdout s
     ∨ ∃ e, outcome.1 = Ret PNone
         ∧ stdout outcome.2
           = ("Error parsing weather response: " +:+ exn_msg e) :: stdout s)
  ∧ (clock_reads s ≤ clock_reads outcome.2 ≤ 2 + clock_reads s)%nat.
Proof.
  unfold parse_weather_response, try_except_Exception.
  destruct api_response as [ |b|z|f|t|d|l|body];
    try (rewrite parse_try_not_dict by (intros []); cbn;
         split; [intros record H; discriminate H|];
         split; [right; by exists (mkExn AttributeError "object has no attribute 'get'") | lia]).
  destruct (current_cases body) as [(current & Hc & Hne)|[Hf|(Ht & Hn)]].
  - rewrite (parse_try_current E body current city s Hc Hne).
    destruct (datetime_fromisoformat E _) as [timestamp|e] eqn:He.
    + cbn. split; [done|]. split; [by left | lia].
    + rewrite (datetime_fromisoformat_Exception E _ e He). cbn.
      split; [intros record H; discriminate H|].
      split; [right; by exists e | lia].
  - rewrite (parse_try_falsy E body city s Hf). cbn.
    split; [intros record H; discriminate H|]. split; [by left | lia].
  - rewrite (parse_try_current_not_dict E body city s Ht Hn). cbn.
    split; [intros record H; discriminate H|].
    split; [right; by exists (mkExn AttributeError "object has no attribute 'get'") | lia].
Qed.

(** parse reads three entries of the response, current, latitude and
    longitude: two responses that agree on them give the same result and
    the same final state, whatever else they hold. *)
Theorem parse_reads_three_keys (E : env) (body1 body2 : dict)
    (city : string) (s : state) :
  body1 !! "current" = body2 !! "current" →
  body1 !! "latitude" = body2 !! "latitude" →
  body1 !! "longitude" = body2 !! "longitude" →
  parse_weather_response E (PDict body1) city s
  = parse_weather_response E (PDict body2) city s.
Proof.
  intros Hc Hlat Hlon.
  unfold parse_weather_response, parse_weather_response_try, M_bind, lift,
    dict_get_default, dict_get.
  cbn [getattr_get]. by rewrite Hc, Hlat, Hlon.
Qed.

(** The fixture of the tests carries a timezone entry, scenario A of the
    specification does not. *)
Lemma parse_reads_three_keys_witness :
  parse_weather_response (mock_env (mock_get_ok PNone))
    (PDict (<["timezone" := PStr "America/Edmonton"]> scenario_A_response))
    "Calgary" initial_state
  = parse_weather_response (mock_env (mock_get_ok PNone))
      (PDict scenario_A_response) "Calgary" initial_state.
Proof.
  apply (parse_reads_three_keys (mock_env (mock_get_ok PNone))
           (<["timezone" := PStr "America/Edmonton"]> scenario_A_response)
           scenario_A_response "Calgary" initial_state);
    vm_compute; reflexivity.
Defined.

Lemma built_record_complete (record : dict) (timestamp : datetime)
    (city : string) (lat lon temp : pyval) :
  record !! "timestamp" = Some (PDatetime timestamp) →
  record !! "city" = Some (PStr city) →
  record !! "latitude" = Some lat →
  record !! "longitude" = Some lon →
  record !! "temperature" = Some temp →
  lat ≠ PNone → lon ≠ PNone → temp ≠ PNone →
  complete record.
Proof.
  intros Ht Hc H1 H2 H3 N1 N2 N3 field Hin.
  unfold required_fields in Hin.
  rewrite !elem_of_cons, elem_of_nil in Hin.
  destruct Hin as [->|[->|[->|[->|[->|[]]]]]]; eauto.
Qed.

Lemma in_closed_interval_not_None (lo hi : Z) (v : pyval) :
  in_closed_interval lo hi v → v ≠ PNone.
Proof. intros (q & Hq & _) ->. discriminate Hq. Qed.

(** A record whose timestamp is a datetime and whose city is a str, as
    fetch and parse build it, is valid exactly when its three checked
    values lie in their intervals. *)
Lemma validate_built_record (record : dict) (timestamp : datetime)
    (city : string) (lat lon temp : pyval) :
  record !! "timestamp" = Some (PDatetime timestamp) →
  record !! "city" = Some (PStr city) →
  record !! "latitude" = Some lat →
  record !! "longitude" = Some lon →
  record !! "temperature" = Some temp →
  validate_weather_record (Some record) = Ret true ↔
  in_closed_interval (-90) 90 lat
  ∧ in_closed_interval (-180) 180 lon
  ∧ in_closed_interval (-100) 60 temp.
Proof.
  intros Ht Hc H1 H2 H3. split.
  - intros Hv.
    destruct (complete_dec record) as [Hcomp|Hn];
      [|rewrite (validate_incomplete record Hn) in Hv; discriminate].
    rewrite (validate_complete record lat lon temp Hcomp H1 H2 H3) in Hv.
    destruct (chained_le_cases (-90) 90 lat) as [[E1 I1]|[[E1 _]|[E1 _]]];
      rewrite E1 in Hv; simpl in Hv; try discriminate.
    destruct (chained_le_cases (-180) 180 lon) as [[E2 I2]|[[E2 _]|[E2 _]]];
      rewrite E2 in Hv; simpl in Hv; try discriminate.
    destruct (chained_le_cases (-100) 60 temp) as [[E3 I3]|[[E3 _]|[E3 _]]];
      rewrite E3 in Hv; simpl in Hv; try discriminate.
    done.
  - intros (I1 & I2 & I3).
    assert (Hcomp : complete record).
    { apply (built_record_complete record timestamp city lat lon temp);
        eauto using in_closed_interval_not_None. }
    rewrite (validate_complete record lat lon temp Hcomp H1 H2 H3).
    apply chained_le_true in I1, I2, I3. by rewrite I1, I2, I3.
Qed.

(** What a record that parse returns holds under the checked fields. *)
Lemma parse_record_checked_fields (E : env) (body : dict) (city : string)
    (s : state) (record : dict) :
  (parse_weather_response E (PDict body) city s).1 = Ret (PDict record) →
  ∃ current timestamp,
    body !! "current" = Some (PDict current)
    ∧ current ≠ ∅
    ∧ datetime_fromisoformat E (time_or_now E current s) = Ret timestamp
    ∧ record !! "timestamp" = Some (PDatetime timestamp)
    ∧ record !! "city" = Some (PStr city)
    ∧ record !! "latitude" = Some (dict_get body "latitude")
    ∧ record !! "longitude" = Some (dict_get body "longitude")
    ∧ record !! "temperature" = Some (dict_get current "temperature_2m")
    ∧ record !! "fetch_time"
        = Some (PDatetime (wall_clock E (S (clock_reads s)))).
Proof.
  unfold parse_weather_response, try_except_Exception.
  destruct (current_cases body) as [(current & Hc & Hne)|[Hf|(Ht & Hn)]].
  - rewrite (parse_try_current E body current city s Hc Hne).
    destruct (datetime_fromisoformat E _) as [timestamp|e] eqn:He.
    + intros [= <-]. exists current, timestamp.
      repeat (split; [done|]). reflexivity.
    + rewrite (datetime_fromisoformat_Exception E _ e He). discriminate.
  - rewrite (parse_try_falsy E body city s Hf). discriminate.
  - rewrite (parse_try_current_not_dict E body city s Ht Hn). discriminate.
Qed.

(** parse, then validate: a record that parse returns is valid exactly
    when the latitude and longitude at the top level of the response and
    temperature_2m of its current object lie in their intervals; the
    timestamp and the city that parse sets never make it invalid, a
    coordinate or temperature that is absent always does. *)
Theorem validate_after_parse (E : env) (body : dict) (city : string)
    (s : state) (record : dict) :
  (parse_weather_response E (PDict body) city s).1 = Ret (PDict record) →
  ∃ current,
    body !! "current" = Some (PDict current)
    ∧ (validate_weather_record (Some record) = Ret true ↔
       in_closed_interval (-90) 90 (dict_get body "latitude")
       ∧ in_closed_interval (-180) 180 (dict_get body "longitude")
       ∧ in_closed_interval (-100) 60 (dict_get current "temperature_2m"))
    ∧ (body !! "latitude" = None ∨ body !! "longitude" = None
       ∨ current !! "temperature_2m" = None →
       validate_weather_record (Some record) = Ret false).
Proof.
  intros Hp.
  destruct (parse_record_checked_fields E body city s record Hp)
    as (current & timestamp & Hc & _ & _ & Kt & Kc & K1 & K2 & K3 & _).
  exists current. split; [done|]. split.
  - by apply (validate_built_record record timestamp city).
  - intros Hmissing. apply validate_incomplete. intros Hcomp.
    destruct Hmissing as [Hm|[Hm|Hm]].
    + destruct (Hcomp "latitude") as (v & Hv & Hne);
        [unfold required_fields; set_solver|].
      rewrite K1 in Hv. unfold dict_get in Hv. rewrite Hm in Hv.
      injection Hv as <-. done.
    + destruct (Hcomp "longitude") as (v & Hv & Hne);
        [unfold required_fields; set_solver|].
      rewrite K2 in Hv. unfold dict_get in Hv. rewrite Hm in Hv.
      injection Hv as <-. done.
    + destruct (Hcomp "temperature") as (v & Hv & Hne);
        [unfold required_fields; set_solver|].
      rewrite K3 in Hv. unfold dict_get in Hv. rewrite Hm in Hv.
      injection Hv as <-. done.
Qed.

(** [test_parse_and_validate_flow]. *)
Lemma validate_after_parse_witness :
  ∃ record,
    (parse_weather_response (mock_env (mock_get_ok PNone))
       (PDict scenario_A_response) "Calgary" initial_state).1
    = Ret (PDict record)
    ∧ ∃ current,
        scenario_A_response !! "current" = Some (PDict current)
        ∧ (validate_weather_record (Some record) = Ret true ↔
           in_closed_interval (-90) 90
             (dict_get scenario_A_response "latitude")
           ∧ in_closed_interval (-180) 180
               (dict_get scenario_A_response "longitude")
           ∧ in_closed_interval (-100) 60
               (dict_get current "temperature_2m"))
        ∧ (scenario_A_response !! "latitude" = None
           ∨ scenario_A_response !! "longitude" = None
           ∨ current !! "temperature_2m" = None →
           validate_weather_record (Some record) = Ret false).
Proof.
  eexists. split; [vm_compute; reflexivity|].
  apply (validate_after_parse (mock_env (mock_get_ok PNone))
           scenario_A_response "Calgary" initial_state).
  vm_compute. reflexivity.
Defined.

(** The fallback of parse: when current has no time entry and
    fromisoformat reads back what isoformat printed of the clock
    reading, the timestamp of the record is that first reading and its
    fetch_time the second one. *)
Theorem parse_timestamp_fallback (E : env) (body current : dict)
    (city : string) (s : state) :
  body !! "current" = Some (PDict current) →
  current ≠ ∅ →
  current !! "time" = None →
  parse_iso E (isoformat E (wall_clock E (clock_reads s)))
    = Some (wall_clock E (clock_reads s)) →
  ∃ record,
    (parse_weather_response E (PDict body) city s).1 = Ret (PDict record)
    ∧ record !! "timestamp"
        = Some (PDatetime (wall_clock E (clock_reads s)))
    ∧ record !! "fetch_time"
        = Some (PDatetime (wall_clock E (S (clock_reads s)))).
Proof.
  intros Hc Hne Htime Hround.
  unfold parse_weather_response, try_except_Exception.
  rewrite (parse_try_current E body current city s Hc Hne).
  unfold time_or_now, dict_get_default. rewrite Htime.
  cbn [default datetime_fromisoformat]. rewrite Hround.
  eexists. split; [reflexivity|]. split; reflexivity.
Qed.

Lemma parse_timestamp_fallback_witness :
  ∃ record,
    (parse_weather_response (mock_env (mock_get_ok PNone))
       (PDict {["current" := PDict {["temperature_2m" := lit_m5_2]}]})
       "Calgary" initial_state).1 = Ret (PDict record)
    ∧ record !! "timestamp" = Some (PDatetime (mock_clock 0))
    ∧ record !! "fetch_time" = Some (PDatetime (mock_clock 1)).
Proof.
  apply (parse_timestamp_fallback (mock_env (mock_get_ok PNone))
           {["current" := PDict {["temperature_2m" := lit_m5_2]}]}
           {["temperature_2m" := lit_m5_2]} "Calgary" initial_state).
  - vm_compute. reflexivity.
  - intros H. apply (f_equal (λ m : dict, m !! "temperature_2m")) in H.
    vm_compute in H. discriminate H.
  - vm_compute. reflexivity.
  - vm_compute. reflexivity.
Defined.

(* --------------------------------------------------------------------- *)
(* 16. fetch_weather_data: when it returns what                          *)
(* --------------------------------------------------------------------- *)

(** The [try] block of fetch once the body is decoded to a dict whose
    current entry, or the empty dict in its place, is a dict. *)
Lemma fetch_try_current (E : env)
    (latitude longitude : pyval) (city timezone api_url : string)
    (timeout : Z) (s : state)
    (response : Response) (body current : dict) :
  requests_get E api_url (request_params latitude longitude timezone) timeout
    = Ret response →
  raise_for_status response = Ret tt →
  json response = Ret (PDict body) →
  dict_get_default body "current" (PDict ∅) = PDict current →
  fetch_weather_data_try E latitude longitude city timezone api_url timeout s
  = match datetime_fromisoformat E (time_or_now E current s) with
    | Ret timestamp =>
        (Ret (PDict (list_to_map
           [ ("timestamp", PDatetime timestamp);
             ("latitude", latitude);
             ("longitude", longitude);
             ("temperature", dict_get current "temperature_2m");
             ("humidity", dict_get current "relative_humidity_2m");
             ("wind_speed", dict_get current "wind_speed_10m");
             ("wind_direction", dict_get current "wind_direction_10m");
             ("weather_code", dict_get current "weather_code");
             ("city", PStr city);
             ("fetch_time",
              PDatetime (wall_clock E (S (clock_reads s)))) ])),
         mkState (S (S (clock_reads s))) (stdout s))
    | Raise e => (Raise e, mkState (S (clock_reads s)) (stdout s))
    end.
Proof.
  intros Hget Hstatus Hjson Hcur.
  unfold fetch_weather_data_try, M_bind, lift, M_ret, datetime_now,
    time_or_now.
  rewrite Hget. cbn match. rewrite Hstatus. cbn match.
  rewrite Hjson. cbn match. cbn [getattr_get]. rewrite Hcur.
  cbn [getattr_get clock_reads].
  by destruct (datetime_fromisoformat E _).
Qed.

(** Where the [try] block of fetch stops before it reads the clock. *)
Lemma fetch_try_early (E : env)
    (latitude longitude : pyval) (city timezone api_url : string)
    (timeout : Z) (s : state) :
  (∃ response body current,
     requests_get E api_url (request_params latitude longitude timezone)
       timeout = Ret response
     ∧ raise_for_status response = Ret tt
     ∧ json response = Ret (PDict body)
     ∧ dict_get_default body "current" (PDict ∅) = PDict current)
  ∨ ∃ e,
      fetch_weather_data_try E latitude longitude city timezone api_url
        timeout s = (Raise e, s).
Proof.
  unfold fetch_weather_data_try, M_bind, lift.
  destruct (requests_get E _ _ _) as [response|e] eqn:Hget;
    [|right; by exists e].
  destruct (raise_for_status response) as [[]|e] eqn:Hstatus;
    [|right; by exists e].
  destruct (json response) as [data|e] eqn:Hjson; [|right; by exists e].
  destruct data as [ |b|z|f|t|d|l|body];
    try (right; eexists; reflexivity).
  destruct (dict_get_default body "current" (PDict ∅))
    as [ |b|z|f|t|d|l|current] eqn:Hcur;
    try (right; eexists; cbn; rewrite Hcur; reflexivity).
  left. by exists response, body, current.
Qed.

(** fetch returns a record exactly when the request succeeds, the status
    check passes, the body decodes to a dict whose current entry (the
    empty dict when there is none) is a dict, and fromisoformat reads
    its time or the clock reading taken in its place; the record then
    holds the ten fixed keys, the coordinates and the city of the call,
    the five measurements of current under their new names (None where
    current has none), and the second clock reading as fetch_time. *)
Theorem fetch_returns_record_iff (E : env)
    (latitude longitude : pyval) (city timezone api_url : string)
    (timeout : Z) (s : state) (record : dict) :
  (fetch_weather_data E latitude longitude city timezone api_url
     timeout s).1 = Ret (PDict record) ↔
  ∃ response body current timestamp,
    requests_get E api_url (request_params latitude longitude timezone)
      timeout = Ret response
    ∧ raise_for_status response = Ret tt
    ∧ json response = Ret (PDict body)
    ∧ dict_get_default body "current" (PDict ∅) = PDict current
    ∧ datetime_fromisoformat E (time_or_now E current s) = Ret timestamp
    ∧ dom record = record_keys
    ∧ record !! "timestamp" = Some (PDatetime timestamp)
    ∧ record !! "latitude" = Some latitude
    ∧ record !! "longitude" = Some longitude
    ∧ record !! "temperature" = Some (dict_get current "temperature_2m")
    ∧ record !! "humidity" = Some (dict_get current "relative_humidity_2m")
    ∧ record !! "wind_speed" = Some (dict_get current "wind_speed_10m")
    ∧ record !! "wind_direction"
        = Some (dict_get current "wind_direction_10m")
    ∧ record !! "weather_code" = Some (dict_get current "weather_code")
    ∧ record !! "city" = Some (PStr city)
    ∧ record !! "fetch_time"
        = Some (PDatetime (wall_clock E (S (clock_reads s)))).
Proof.
  unfold fetch_weather_data, try_except_Exception.
  split.
  - destruct (fetch_try_early E latitude longitude city timezone api_url
                timeout s)
      as [(response & body & current & Hget & Hstatus & Hjson & Hcur)
         |(e & ->)].
    + rewrite (fetch_try_current E latitude longitude city timezone api_url
                 timeout s response body current Hget Hstatus Hjson Hcur).
      destruct (datetime_fromisoformat E _) as [timestamp|e] eqn:He.
      * intros [= <-]. exists response, body, current, timestamp.
        repeat (split; [done|]). reflexivity.
      * rewrite (datetime_fromisoformat_Exception E _ e He). discriminate.
    + destruct (is_Exception (exn_cls e)); discriminate.
  - intros (response & body & current & timestamp & Hget & Hstatus & Hjson
            & Hcur & Hts & Hdom
            & K1 & K2 & K3 & K4 & K5 & K6 & K7 & K8 & K9 & K10).
    rewrite (fetch_try_current E latitude longitude city timezone api_url
               timeout s response body current Hget Hstatus Hjson Hcur), Hts.
    cbn [fst]. f_equal. f_equal. apply map_eq. intros key.
    destruct (decide (key ∈ record_keys)) as [Hin|Hout].
    + unfold record_keys in Hin. cbn [list_to_set foldr] in Hin.
      rewrite !elem_of_union, !elem_of_singleton, elem_of_empty in Hin.
      destruct Hin as [->|[->|[->|[->|[->|[->|[->|[->|[->|[->|[]]]]]]]]]]];
        symmetry; assumption.
    + transitivity (@None pyval).
      * apply not_elem_of_dom.
        cbn [list_to_map foldr uncurry fst snd].
        rewrite !dom_insert_L, dom_empty_L.
        unfold record_keys in Hout. cbn [list_to_set foldr] in Hout.
        set_solver.
      * symmetry. apply not_elem_of_dom. by rewrite Hdom.
Qed.

(** [test_successful_fetch]: the fixture record with the second reading
    of the clock double as its fetch_time. *)
Lemma fetch_returns_record_iff_witness :
  dom (<["fetch_time" := PDatetime (mock_clock 1)]> valid_weather_record)
  = record_keys.
Proof.
  destruct (proj1 (fetch_returns_record_iff
    (mock_env (mock_get_ok (PDict scenario_A_response)))
    CALGARY_LAT CALGARY_LON "Calgary" "America/Edmonton" WEATHER_API_URL 10
    initial_state
    (<["fetch_time" := PDatetime (mock_clock 1)]> valid_weather_record)))
    as (response & body & current & timestamp & _ & _ & _ & _ & _ & H & _).
  - vm_compute. reflexivity.
  - exact H.
Defined.

(** What fetch does to the state.  A returned record costs two clock
    readings and prints nothing.  None never comes silently: the line
    of the handler was printed with it, once.  What still leaves fetch
    as an exception is no instance of Exception, and nothing was
    printed for it. *)
Theorem fetch_effects (E : env)
    (latitude longitude : pyval) (city timezone api_url : string)
    (timeout : Z) (s : state) :
  let outcome :=
    fetch_weather_data E latitude longitude city timezone api_url timeout s in
  (∀ record, outcome.1 = Ret (PDict record) →
     outcome.2 = mkState (S (S (clock_reads s))) (stdout s))
  ∧ (outcome.1 = Ret PNone →
     ∃ e, stdout outcome.2
          = ("Error fetching weather data: " +:+ exn_msg e) :: stdout s)
  ∧ (∀ e, outcome.1 = Raise e →
     is_Exception (exn_cls e) = false ∧ outcome.2 = s)
  ∧ (clock_reads s ≤ clock_reads outcome.2 ≤ 2 + clock_reads s)%nat.
Proof.
  unfold fetch_weather_data, try_except_Exception.
  destruct (fetch_try_early E latitude longitude city timezone api_url
              timeout s)
    as [(response & body & current & Hget & Hstatus & Hjson & Hcur)
       |(e & ->)].
  - rewrite (fetch_try_current E latitude longitude city timezone api_url
               timeout s response body current Hget Hstatus Hjson Hcur).
    destruct (datetime_fromisoformat E _) as [timestamp|e] eqn:He.
    + cbn. split; [done|].
      split; [intros H; discriminate H|].
      split; [intros e H; discriminate H | lia].
    + rewrite (datetime_fromisoformat_Exception E _ e He). cbn.
      split; [intros record H; discriminate H|].
      split; [intros _; by exists e|].
      split; [intros e' H; discriminate H | lia].
  - destruct (is_Exception (exn_cls e)) eqn:Hexc; cbn.
    + split; [intros record H; discriminate H|].
      split; [intros _; by exists e|].
      split; [intros e' H; discriminate H | lia].
    + split; [intros record H; discriminate H|].
      split; [intros H; discriminate H|].
      split; [intros e' [= <-]; done | lia].
Qed.

(** What a record that fetch returns holds under the checked fields. *)
Lemma fetch_record_checked_fields (E : env)
    (latitude longitude : pyval) (city timezone api_url : string)
    (timeout : Z) (s : state) (record : dict) :
  (fetch_weather_data E latitude longitude city timezone api_url
     timeout s).1 = Ret (PDict record) →
  ∃ timestamp temperature,
    record !! "timestamp" = Some (PDatetime timestamp)
    ∧ record !! "city" = Some (PStr city)
    ∧ record !! "latitude" = Some latitude
    ∧ record !! "longitude" = Some longitude
    ∧ record !! "temperature" = Some temperature.
Proof.
  unfold fetch_weather_data, try_except_Exception.
  destruct (fetch_try_early E latitude longitude city timezone api_url
              timeout s)
    as [(response & body & current & Hget & Hstatus & Hjson & Hcur)
       |(e & ->)].
  - rewrite (fetch_try_current E latitude longitude city timezone api_url
               timeout s response body current Hget Hstatus Hjson Hcur).
    destruct (datetime_fromisoformat E _) as [timestamp|e] eqn:He.
    + intros [= <-]. exists timestamp, (dict_get current "temperature_2m").
      repeat split; reflexivity.
    + rewrite (datetime_fromisoformat_Exception E _ e He). discriminate.
  - destruct (is_Exception (exn_cls e)); discriminate.
Qed.

(** fetch, then validate: a record that fetch returns is valid exactly
    when the latitude and the longitude of the call and the temperature
    it took from the response lie in their intervals; so no response
    makes a call with a latitude or longitude outside its interval
    yield a valid record. *)
Theorem validate_after_fetch (E : env)
    (latitude longitude : pyval) (city timezone api_url : string)
    (timeout : Z) (s : state) (record : dict) :
  (fetch_weather_data E latitude longitude city timezone api_url
     timeout s).1 = Ret (PDict record) →
  ∃ temperature,
    record !! "temperature" = Some temperature
    ∧ (validate_weather_record (Some record) = Ret true ↔
       in_closed_interval (-90) 90 latitude
       ∧ in_closed_interval (-180) 180 longitude
       ∧ in_closed_interval (-100) 60 temperature).
Proof.
  intros Hf.
  destruct (fetch_record_checked_fields E latitude longitude city timezone
              api_url timeout s record Hf)
    as (timestamp & temperature & Kt & Kc & K1 & K2 & K3).
  exists temperature. split; [done|].
  by apply (validate_built_record record timestamp city).
Qed.

(** [test_fetch_and_validate_flow]. *)
Lemma validate_after_fetch_witness :
  ∃ temperature,
    (<["fetch_time" := PDatetime (mock_clock 1)]> valid_weather_record)
      !! "temperature" = Some temperature
    ∧ (validate_weather_record
         (Some (<["fetch_time" := PDatetime (mock_clock 1)]>
            valid_weather_record)) = Ret true ↔
       in_closed_interval (-90) 90 CALGARY_LAT
       ∧ in_closed_interval (-180) 180 CALGARY_LON
       ∧ in_closed_interval (-100) 60 temperature).
Proof.
  apply (validate_after_fetch
    (mock_env (mock_get_ok (PDict scenario_A_response)))
    CALGARY_LAT CALGARY_LON "Calgary" "America/Edmonton" WEATHER_API_URL 10
    initial_state).
  vm_compute. reflexivity.
Defined.

(** Where fetch and parse part: on a body without a current entry, or
    with an empty one, whose request and status check went well, fetch
    still builds a record when fromisoformat reads back the clock
    reading: its timestamp is that reading, its five measurements are
    None, and validate rejects it for the missing temperature; parse
    returns None on the same body. *)
Theorem fetch_without_current (E : env)
    (latitude longitude : pyval) (city timezone api_url : string)
    (timeout : Z) (s : state) (response : Response) (body : dict) :
  requests_get E api_url (request_params latitude longitude timezone) timeout
    = Ret response →
  raise_for_status response = Ret tt →
  json response = Ret (PDict body) →
  body !! "current" = None ∨ body !! "current" = Some (PDict ∅) →
  parse_iso E (isoformat E (wall_clock E (clock_reads s)))
    = Some (wall_clock E (clock_reads s)) →
  ∃ record,
    (fetch_weather_data E latitude longitude city timezone api_url
       timeout s).1 = Ret (PDict record)
    ∧ record !! "timestamp"
        = Some (PDatetime (wall_clock E (clock_reads s)))
    ∧ record !! "temperature" = Some PNone
    ∧ record !! "humidity" = Some PNone
    ∧ record !! "wind_speed" = Some PNone
    ∧ record !! "wind_direction" = Some PNone
    ∧ record !! "weather_code" = Some PNone
    ∧ validate_weather_record (Some record) = Ret false
    ∧ (parse_weather_response E (PDict body) city s).1 = Ret PNone.
Proof.
  intros Hget Hstatus Hjson Hcur Hround.
  assert (Hd : dict_get_default body "current" (PDict ∅) = PDict ∅)
    by (unfold dict_get_default; by destruct Hcur as [-> | ->]).
  unfold fetch_weather_data, try_except_Exception.
  rewrite (fetch_try_current E latitude longitude city timezone api_url
             timeout s response body ∅ Hget Hstatus Hjson Hd).
  unfold time_or_now, dict_get_default. rewrite lookup_empty.
  cbn [default datetime_fromisoformat]. rewrite Hround.
  eexists. split; [reflexivity|].
  repeat (split; [reflexivity|]). split.
  - apply validate_incomplete. intros Hcomp.
    destruct (Hcomp "temperature") as (v & Hv & Hne);
      [unfold required_fields; rewrite !elem_of_cons; tauto|].
    change (Some PNone = Some v) in Hv. injection Hv as <-. done.
  - unfold parse_weather_response, try_except_Exception.
    rewrite parse_try_falsy; [reflexivity|]. by rewrite Hd.
Qed.

Lemma fetch_without_current_witness :
  ∃ record,
    (fetch_weather_data (mock_env (mock_get_ok (PDict ∅)))
       CALGARY_LAT CALGARY_LON "Calgary" "America/Edmonton" WEATHER_API_URL 10
       initial_state).1 = Ret (PDict record)
    ∧ record !! "timestamp" = Some (PDatetime (mock_clock 0))
    ∧ record !! "temperature" = Some PNone
    ∧ record !! "humidity" = Some PNone
    ∧ record !! "wind_speed" = Some PNone
    ∧ record !! "wind_direction" = Some PNone
    ∧ record !! "weather_code" = Some PNone
    ∧ validate_weather_record (Some record) = Ret false
    ∧ (parse_weather_response (mock_env (mock_get_ok (PDict ∅)))
         (PDict ∅) "Calgary" initial_state).1 = Ret PNone.
Proof.
  apply (fetch_without_current (mock_env (mock_get_ok (PDict ∅)))
           CALGARY_LAT CALGARY_LON "Calgary" "America/Edmonton"
           WEATHER_API_URL 10 initial_state
           (mkResponse (Ret tt) (Ret (PDict ∅))) ∅).
  - reflexivity.
  - reflexivity.
  - reflexivity.
  - left. reflexivity.
  - vm_compute. reflexivity.
Defined.

(* --------------------------------------------------------------------- *)
(* 17. get_weather_description: the table                                *)
(* --------------------------------------------------------------------- *)

Lemma describe_known_pairwise :
  forallb (λ c1,
    forallb (λ c2,
      implb (String.eqb (get_weather_description c1)
                        (get_weather_description c2))
            (c1 =? c2))
      documented_codes)
    documented_codes = true.
Proof. vm_compute. reflexivity. Qed.

Lemma describe_known_not_Unknown :
  forallb (λ c, negb (String.eqb (get_weather_description c) "Unknown"))
    documented_codes = true.
Proof. vm_compute. reflexivity. Qed.

(** The description identifies the code: a known code shares its
    description with no other integer, known or not. *)
Theorem describe_injective_on_known (code1 code2 : Z) :
  code1 ∈ documented_codes →
  get_weather_description code1 = get_weather_description code2 →
  code1 = code2.
Proof.
  intros H1 Heq.
  destruct (decide (code2 ∈ documented_codes)) as [H2|H2].
  - pose proof describe_known_pairwise as Hall.
    rewrite forallb_forall in Hall.
    specialize (Hall code1 (proj1 (list_elem_of_In _ _) H1)).
    rewrite forallb_forall in Hall.
    specialize (Hall code2 (proj1 (list_elem_of_In _ _) H2)).
    rewrite Heq, String.eqb_refl in Hall. simpl in Hall.
    by apply Z.eqb_eq.
  - exfalso. rewrite (describe_unmapped code2 H2) in Heq.
    pose proof describe_known_not_Unknown as Hall.
    rewrite forallb_forall in Hall.
    specialize (Hall code1 (proj1 (list_elem_of_In _ _) H1)).
    rewrite Heq in Hall. discriminate Hall.
Qed.

Lemma describe_injective_on_known_witness : 3 = 3.
Proof.
  apply (describe_injective_on_known 3 3); [|reflexivity].
  unfold documented_codes. rewrite !elem_of_cons. do 3 right. by left.
Defined.
